(** * Mobile_App: the Firebase façade of the personal-finance client

    A shallow embedding of the three service modules of the repository

    - [lib/firebase/auth.js]      (sign up, sign in, Google sign-in, user profile document),
    - [lib/firebase/firestore.js] (document CRUD, statements, transactions, queries),
    - [lib/firebase/storage.js]   (file validation, upload, delete, batch delete),

    over an explicit model of the hosted platform: an identity provider, a
    document store and a blob store, packed in one [World].  Every [async]
    function of the source becomes a computation in a state-and-exception
    monad [M]: the state is the [World], an exception is a rejected promise.
    The platform calls themselves ([getDoc], [setDoc], [getDocs], ...) are the
    environment; each of them can fail on demand, following a script of faults
    carried by the world, so that theorems quantify over every failure
    pattern of the platform.

    After the three modules come the provider of [contexts/AuthContext.js],
    which calls them, over the state cells of the component.  Left out:
    the rendering of the provider, [useAuth], and the framework
    configuration. *)

From stdpp Require Import gmap strings list fin_maps sorting pretty.
From Stdlib Require Import ZArith Lia Ascii.
From Stdlib Require OrderedTypeEx.

Set Warnings "-register-all".
Local Open Scope Z_scope.
Local Open Scope string_scope.

(** ** JavaScript values *)

Module Js.

(** The values that travel between the client and the platform.  Objects are
    finite maps from property names to values; [VServerTimestamp] is the
    sentinel returned by [serverTimestamp()], replaced by the server clock
    when a write is applied. *)
Inductive Value :=
| VUndefined
| VNull
| VBool (b : bool)
| VNum (n : Z)
| VStr (s : string)
| VTime (t : nat)
| VServerTimestamp
| VArr (l : list Value)
| VObj (o : gmap string Value).

Abbreviation Obj := (gmap string Value).

#[global] Instance Value_eq_dec : EqDecision Value.
Proof.
  refine (fix go (a b : Value) {struct a} : Decision (a = b) :=
    let _ : EqDecision Value := go in
    match a, b with
    | VUndefined, VUndefined => left _
    | VNull, VNull => left _
    | VBool x, VBool y => cast_if (decide (x = y))
    | VNum x, VNum y => cast_if (decide (x = y))
    | VStr x, VStr y => cast_if (decide (x = y))
    | VTime x, VTime y => cast_if (decide (x = y))
    | VServerTimestamp, VServerTimestamp => left _
    | VArr x, VArr y => cast_if (decide (x = y))
    | VObj x, VObj y => cast_if (decide (x = y))
    | _, _ => right _
    end); abstract congruence.
Defined.

(** [o.k]: a missing property reads as [undefined]. *)
Definition field (o : Obj) (k : string) : Value := default VUndefined (o !! k).

(** Truthiness, as used by [if (x)], [!x] and [x || y]. *)
Definition truthy (v : Value) : bool :=
  match v with
  | VUndefined | VNull => false
  | VBool b => b
  | VNum n => negb (Z.eqb n 0)
  | VStr s => negb (String.eqb s "")
  | _ => true
  end.

(** [a || b] *)
Definition js_or (a b : Value) : Value := if truthy a then a else b.

(** [{ ...base, k: v }]: a later property overrides an earlier one. *)
Definition put (k : string) (v : Value) (base : Obj) : Obj := <[k := v]> base.

(** [{ ...base, ...extra }]: the properties of [extra] win. *)
Definition spread (base extra : Obj) : Obj := extra ∪ base.

(** What a thrown (or rejected) value can be in this code base: an [Error]
    with a message, raised by the platform or the runtime, or a plain object
    handed to [reject]. *)
Inductive Thrown :=
| ErrorObj (message : string)
| PlainObj (o : Obj).

(** [error.message] *)
Definition message_of (e : Thrown) : Value :=
  match e with
  | ErrorObj m => VStr m
  | PlainObj o => field o "message"
  end.

(** The uniform reply of the façade: [{ success: true, ... }] with a payload,
    or [{ success: false, error }]. *)
Inductive Result (A : Type) :=
| Success (payload : A)
| Failure (error : Value).
Arguments Success {A} payload.
Arguments Failure {A} error.

Definition is_success {A} (r : Result A) : bool :=
  match r with Success _ => true | Failure _ => false end.

(** The state of a promise once settled, as [Promise.allSettled] reports it. *)
Inductive Settled (A : Type) :=
| Fulfilled (value : A)
| Rejected (reason : Thrown).
Arguments Fulfilled {A} value.
Arguments Rejected {A} reason.

(** Replace the server-timestamp sentinels by the server time [t]. *)
Fixpoint resolve (t : nat) (v : Value) : Value :=
  match v with
  | VServerTimestamp => VTime t
  | VArr l => VArr (map (resolve t) l)
  | VObj o => VObj (resolve t <$> o)
  | _ => v
  end.

(** The order the document store sorts field values by: first by kind
    (null, booleans, numbers, timestamps, strings, arrays, maps), then by
    value inside a kind; arrays and maps are left in ties. *)
Definition rank (v : Value) : nat :=
  match v with
  | VUndefined => 0
  | VNull => 1
  | VBool _ => 2
  | VNum _ => 3
  | VTime _ => 4
  | VServerTimestamp => 5
  | VStr _ => 6
  | VArr _ => 7
  | VObj _ => 8
  end%nat.

Definition value_leb (a b : Value) : bool :=
  match a, b with
  | VBool x, VBool y => implb x y
  | VNum x, VNum y => Z.leb x y
  | VTime x, VTime y => Nat.leb x y
  | VStr x, VStr y => String.leb x y
  | _, _ => Nat.leb (rank a) (rank b)
  end.

End Js.
Export Js.

(** ** The platform: identity provider, document store, blob store *)

Module Platform.

(** The user object of the identity provider. *)
Record User := mkUser {
  uid : string;
  email : Value;
  displayName : Value;
  photoURL : Value }.

Record Account := mkAccount {
  acc_password : string;
  acc_user : User }.

(** A browser [File]: only the properties the code reads. *)
Record File := mkFile {
  file_name : string;
  file_size : Z;
  file_type : string }.

(** The metadata the blob store keeps for an object. *)
Record Metadata := mkMetadata {
  md_name : string;
  md_size : Z;
  md_contentType : string;
  md_timeCreated : nat;
  md_fullPath : string }.

(** Queries are built as data by [query(collection(db, c), ...constraints)]
    and run by [getDocs]. *)
Inductive Direction := Asc | Desc.

Inductive Constraint :=
| WhereEq (fld : string) (v : Value)
| WhereIn (fld : string) (vs : list Value)
| OrderBy (fld : string) (d : Direction)
| Limit (n : Value).

Record Query := mkQuery {
  q_collection : string;
  q_constraints : list Constraint }.

(** A document as [getDoc] and [getDocs] hand it over: [doc.id] and
    [doc.data()]. *)
Record Snapshot := mkSnapshot {
  snap_id : string;
  snap_data : Obj }.

(** The calls made to the platform, in the order they are issued. *)
Inductive Call :=
| CreateUserWithEmailAndPassword (em pw : string)
| SignInWithEmailAndPassword (em pw : string)
| SignInWithPopup
| SignOut
| SendPasswordResetEmail (em : string)
| UpdateProfile (u : string) (dn : Value)
| GetDoc (c id : string)
| SetDoc (c id : string) (data : Obj)
| AddDoc (c : string) (data : Obj)
| UpdateDoc (c id : string) (data : Obj)
| DeleteDoc (c id : string)
| GetDocs (q : Query)
| BatchCommit (writes : list (string * string * Obj))
| UploadBytes (path : string) (f : File)
| UploadBytesResumable (path : string) (f : File)
| GetDownloadURL (path : string)
| GetMetadata (path : string)
| DeleteObject (path : string)
| OnProgress (transferred total : Z).

Record World := mkWorld {
  accounts : gmap string Account;      (* email/password accounts, by email *)
  google_account : option User;        (* the account picked in the Google popup, if any *)
  current_user : option User;          (* auth.currentUser *)
  db : gmap (string * string) Obj;     (* documents, by (collection, id) *)
  issued : gset string;                (* automatic document ids handed out so far *)
  files : gmap string Metadata;        (* stored objects, by path *)
  now : nat;                           (* the server clock *)
  faults : list (option string);       (* per platform call: [Some msg] makes it fail *)
  log : list Call }.                   (* the platform calls issued so far *)

Definition with_accounts (a : gmap string Account) (w : World) : World :=
  mkWorld a (google_account w) (current_user w) (db w) (issued w) (files w) (now w) (faults w) (log w).
Definition with_current_user (u : option User) (w : World) : World :=
  mkWorld (accounts w) (google_account w) u (db w) (issued w) (files w) (now w) (faults w) (log w).
Definition with_db (d : gmap (string * string) Obj) (w : World) : World :=
  mkWorld (accounts w) (google_account w) (current_user w) d (issued w) (files w) (now w) (faults w) (log w).
Definition with_issued (i : gset string) (w : World) : World :=
  mkWorld (accounts w) (google_account w) (current_user w) (db w) i (files w) (now w) (faults w) (log w).
Definition with_files (f : gmap string Metadata) (w : World) : World :=
  mkWorld (accounts w) (google_account w) (current_user w) (db w) (issued w) f (now w) (faults w) (log w).
Definition with_now (t : nat) (w : World) : World :=
  mkWorld (accounts w) (google_account w) (current_user w) (db w) (issued w) (files w) t (faults w) (log w).
Definition with_faults (f : list (option string)) (w : World) : World :=
  mkWorld (accounts w) (google_account w) (current_user w) (db w) (issued w) (files w) (now w) f (log w).
Definition with_log (l : list Call) (w : World) : World :=
  mkWorld (accounts w) (google_account w) (current_user w) (db w) (issued w) (files w) (now w) (faults w) l.

(** *** The monad of asynchronous computations *)

Inductive Outcome (A : Type) :=
| Return (a : A)
| Throw (e : Thrown).
Arguments Return {A} a.
Arguments Throw {A} e.

Definition M (A : Type) : Type := World -> Outcome A * World.

Definition ret {A} (a : A) : M A := fun w => (Return a, w).

Definition throw {A} (e : Thrown) : M A := fun w => (Throw e, w).

Definition bind {A B} (m : M A) (k : A -> M B) : M B := fun w =>
  match m w with
  | (Return a, w') => k a w'
  | (Throw e, w') => (Throw e, w')
  end.

(** [try { body } catch (error) { handler }] *)
Definition try_catch {A} (body : M A) (handler : Thrown -> M A) : M A := fun w =>
  match body w with
  | (Return a, w') => (Return a, w')
  | (Throw e, w') => handler e w'
  end.

(** [Promise.allSettled]: every promise is run to its end and its state
    recorded; nothing is thrown. *)
Fixpoint allSettled {A} (ps : list (M A)) : M (list (Settled A)) := fun w =>
  match ps with
  | [] => (Return [], w)
  | p :: ps' =>
      let '(o, w1) := p w in
      let s := match o with Return a => Fulfilled a | Throw e => Rejected e end in
      match allSettled ps' w1 with
      | (Return ss, w2) => (Return (s :: ss), w2)
      | (Throw e, w2) => (Throw e, w2)
      end
  end.

(** A call to the platform: it is logged and takes the next entry of the
    script of faults; it fails if the entry says so, and has its [effect]
    otherwise.  An exhausted script means no fault. *)
Definition fault (w : World) : option string :=
  match faults w with
  | Some msg :: _ => Some msg
  | _ => None
  end.

Definition enter (c : Call) (w : World) : World :=
  with_faults (tail (faults w)) (with_log (log w ++ [c]) w).

Definition call {A} (c : Call) (effect : M A) : M A := fun w =>
  match fault w with
  | Some msg => (Throw (ErrorObj msg), enter c w)
  | None => effect (enter c w)
  end.

End Platform.
Export Platform.

Declare Scope async_scope.
Delimit Scope async_scope with async.
Notation "x <- m ;; k" := (bind m (fun x => k))
  (at level 100, m at next level, right associativity) : async_scope.
Notation "m ;;; k" := (bind m (fun _ => k))
  (at level 100, right associativity) : async_scope.
Open Scope async_scope.

(** ** The platform SDK, as the code uses it *)

Module Sdk.

(** *** firebase/auth *)

Definition createUserWithEmailAndPassword (em pw : string) : M User :=
  call (CreateUserWithEmailAndPassword em pw) (fun w =>
    match accounts w !! em with
    | Some _ => (Throw (ErrorObj "auth/email-already-in-use"), w)
    | None =>
        let u := mkUser ("uid:" +:+ em) (VStr em) VNull VNull in
        (Return u,
         with_current_user (Some u)
           (with_accounts (<[em := mkAccount pw u]> (accounts w)) w))
    end).

Definition signInWithEmailAndPassword (em pw : string) : M User :=
  call (SignInWithEmailAndPassword em pw) (fun w =>
    match accounts w !! em with
    | Some a =>
        if String.eqb (acc_password a) pw
        then (Return (acc_user a), with_current_user (Some (acc_user a)) w)
        else (Throw (ErrorObj "auth/wrong-password"), w)
    | None => (Throw (ErrorObj "auth/user-not-found"), w)
    end).

Definition signInWithPopup : M User :=
  call SignInWithPopup (fun w =>
    match google_account w with
    | Some u => (Return u, with_current_user (Some u) w)
    | None => (Throw (ErrorObj "auth/popup-closed-by-user"), w)
    end).

Definition signOut : M unit :=
  call SignOut (fun w => (Return tt, with_current_user None w)).

Definition sendPasswordResetEmail (em : string) : M unit :=
  call (SendPasswordResetEmail em) (fun w =>
    match accounts w !! em with
    | Some _ => (Return tt, w)
    | None => (Throw (ErrorObj "auth/user-not-found"), w)
    end).

Definition rename (dn : Value) (u : User) : User :=
  mkUser (uid u) (email u) dn (photoURL u).

(** [updateProfile(user, { displayName })] changes the account at the
    provider and the [user] object itself; the object is shared with the
    caller, who goes on with the value returned here. *)
Definition updateProfile (u : User) (dn : Value) : M User :=
  call (UpdateProfile (uid u) dn) (fun w =>
    let upd := fun a : Account =>
      if String.eqb (uid (acc_user a)) (uid u)
      then mkAccount (acc_password a) (rename dn (acc_user a)) else a in
    (Return (rename dn u),
     with_current_user (Some (rename dn u)) (with_accounts (upd <$> accounts w) w))).

(** *** firebase/firestore *)

Definition serverTimestamp : Value := VServerTimestamp.

(** The result of [getDoc]: [.id], [.exists()] and [.data()]. *)
Record DocumentSnapshot := mkDocumentSnapshot {
  ds_id : string;
  ds_data : option Obj }.

Definition ds_exists (s : DocumentSnapshot) : bool :=
  match ds_data s with Some _ => true | None => false end.

(** What the server stores for [data] written at time [t]. *)
Definition stored (t : nat) (data : Obj) : Obj := resolve t <$> data.

Definition getDoc (c id : string) : M DocumentSnapshot :=
  call (GetDoc c id) (fun w => (Return (mkDocumentSnapshot id (db w !! (c, id))), w)).

Definition setDoc (c id : string) (data : Obj) : M unit :=
  call (SetDoc c id data) (fun w =>
    (Return tt, with_now (S (now w)) (with_db (<[(c, id) := stored (now w) data]> (db w)) w))).

(** Automatic ids never collide with a stored document nor with an id
    handed out before. *)
Definition doc_ids (d : gmap (string * string) Obj) : gset string :=
  set_map (C := gset (string * string)) (D := gset string) snd (dom d).

Definition auto_id (w : World) : string := fresh (issued w ∪ doc_ids (db w)).

(** [doc(collection(db, c))]: a reference with a new automatic id; no call
    to the server. *)
Definition newDocRef : M string := fun w =>
  let id := auto_id w in (Return id, with_issued ({[id]} ∪ issued w) w).

Definition addDoc (c : string) (data : Obj) : M string :=
  call (AddDoc c data) (
    id <- newDocRef ;;
    fun w =>
      (Return id,
       with_now (S (now w)) (with_db (<[(c, id) := stored (now w) data]> (db w)) w))).

Definition updateDoc (c id : string) (data : Obj) : M unit :=
  call (UpdateDoc c id data) (fun w =>
    match db w !! (c, id) with
    | Some old =>
        (Return tt,
         with_now (S (now w))
           (with_db (<[(c, id) := spread old (stored (now w) data)]> (db w)) w))
    | None => (Throw (ErrorObj "not-found"), w)
    end).

Definition deleteDoc (c id : string) : M unit :=
  call (DeleteDoc c id) (fun w => (Return tt, with_db (delete (c, id) (db w)) w)).

(** A write batch is filled locally and sent by one [commit], which applies
    all of its writes or, when it fails, none. *)
Abbreviation WriteBatch := (list (string * string * Obj)).

Definition writeBatch : WriteBatch := [].

Definition batch_set (b : WriteBatch) (c id : string) (data : Obj) : WriteBatch :=
  b ++ [(c, id, data)].

Definition apply_writes (t : nat) (b : WriteBatch)
    (d : gmap (string * string) Obj) : gmap (string * string) Obj :=
  foldl (fun d wr => let '(c, id, data) := wr in <[(c, id) := stored t data]> d) d b.

Definition batch_commit (b : WriteBatch) : M unit :=
  call (BatchCommit b) (fun w =>
    (Return tt, with_now (S (now w)) (with_db (apply_writes (now w) b (db w)) w))).

(** The size limit of an "in" clause. *)
Definition in_limit : nat := 10.

Definition valid_constraint (k : Constraint) : bool :=
  match k with
  | WhereIn _ vs => negb (Nat.eqb (length vs) 0) && Nat.leb (length vs) in_limit
  | Limit (VNum n) => Z.ltb 0 n
  | Limit _ => false
  | _ => true
  end.

Definition matches (d : Obj) (k : Constraint) : bool :=
  match k with
  | WhereEq f v => bool_decide (d !! f = Some v)
  | WhereIn f vs =>
      match d !! f with
      | Some v => bool_decide (v ∈ vs)
      | None => false
      end
  | _ => true
  end.

Definition field_le (f : string) (dir : Direction) (a b : Snapshot) : Prop :=
  match dir with
  | Asc => value_leb (field (snap_data a) f) (field (snap_data b) f) = true
  | Desc => value_leb (field (snap_data b) f) (field (snap_data a) f) = true
  end.

#[global] Instance field_le_dec f dir a b : Decision (field_le f dir a b).
Proof. destruct dir; simpl; apply _. Defined.

Fixpoint apply_order (ks : list Constraint) (l : list Snapshot) : list Snapshot :=
  match ks with
  | [] => l
  | OrderBy f dir :: ks' => merge_sort (field_le f dir) (apply_order ks' l)
  | _ :: ks' => apply_order ks' l
  end.

Fixpoint apply_limit (ks : list Constraint) (l : list Snapshot) : list Snapshot :=
  match ks with
  | [] => l
  | Limit (VNum n) :: ks' => apply_limit ks' (take (Z.to_nat n) l)
  | _ :: ks' => apply_limit ks' l
  end.

Definition collection_docs (c : string) (d : gmap (string * string) Obj) : list Snapshot :=
  omap (fun kv : string * string * Obj =>
          if String.eqb (fst (fst kv)) c
          then Some (mkSnapshot (snd (fst kv)) (snd kv)) else None)
       (map_to_list d).

(** The documents of the collection that pass every [where], sorted by the
    [orderBy] clauses, cut by [limit].  A document that lacks the ordering
    field is kept and sorts as [undefined]; composite indexes are not
    modelled. *)
Definition run_query (q : Query) (d : gmap (string * string) Obj) : list Snapshot :=
  let ks := q_constraints q in
  apply_limit ks
    (apply_order ks
       (filter (fun s => forallb (matches (snap_data s)) ks = true)
               (collection_docs (q_collection q) d))).

Definition getDocs (q : Query) : M (list Snapshot) :=
  call (GetDocs q) (fun w =>
    if forallb valid_constraint (q_constraints q)
    then (Return (run_query q (db w)), w)
    else (Throw (ErrorObj "invalid-argument"), w)).

(** [query(q, constraint)] *)
Definition query (q : Query) (k : Constraint) : Query :=
  mkQuery (q_collection q) (q_constraints q ++ [k]).

(** *** firebase/storage *)

Fixpoint basename_from (acc s : string) : string :=
  match s with
  | EmptyString => acc
  | String c s' =>
      if Ascii.eqb c "/"%char then basename_from "" s'
      else basename_from (acc +:+ String c EmptyString) s'
  end.

Definition basename (path : string) : string := basename_from "" path.

Definition put_object (path : string) (f : File) (w : World) : World :=
  with_now (S (now w))
    (with_files
       (<[path := mkMetadata (basename path) (file_size f) (file_type f) (now w) path]>
          (files w)) w).

Definition uploadBytes (path : string) (f : File) : M unit :=
  call (UploadBytes path f) (fun w => (Return tt, put_object path f w)).

Definition getDownloadURL (path : string) : M string :=
  call (GetDownloadURL path) (fun w =>
    match files w !! path with
    | Some _ => (Return ("https://firebasestorage.googleapis.com/o/" +:+ path), w)
    | None => (Throw (ErrorObj "storage/object-not-found"), w)
    end).

Definition getMetadata (path : string) : M Metadata :=
  call (GetMetadata path) (fun w =>
    match files w !! path with
    | Some md => (Return md, w)
    | None => (Throw (ErrorObj "storage/object-not-found"), w)
    end).

Definition deleteObject (path : string) : M unit :=
  call (DeleteObject path) (fun w =>
    match files w !! path with
    | Some _ => (Return tt, with_files (delete path (files w)) w)
    | None => (Throw (ErrorObj "storage/object-not-found"), w)
    end).

End Sdk.
Export Sdk.

(** ** JavaScript idioms shared by the three modules *)

Module Idioms.

(** [v.k] on an arbitrary value: reading a property of [null] or [undefined]
    throws a [TypeError]; none of the properties read in this code exists on
    a primitive or an array, where the read gives [undefined]. *)
Definition prop (v : Value) (k : string) : M Value :=
  match v with
  | VObj o => ret (field o k)
  | VUndefined | VNull => throw (ErrorObj "TypeError: Cannot read properties of null")
  | _ => ret VUndefined
  end.

(** [{ k1: v1, ..., kn: vn }] *)
Definition obj (l : list (string * Value)) : Obj :=
  foldl (fun o kv => put (fst kv) (snd kv) o) ∅ l.

(** The own enumerable properties copied by [...v]: those of an object, the
    indices of an array, the characters of a string, none otherwise. *)
Definition chars (s : string) : list Value :=
  map (fun c => VStr (String c EmptyString)) (String.list_ascii_of_string s).

Definition indexed (l : list Value) : Obj :=
  obj (imap (fun i v => (pretty i, v)) l).

Definition own_props (v : Value) : Obj :=
  match v with
  | VObj o => o
  | VArr l => indexed l
  | VStr s => indexed (chars s)
  | _ => ∅
  end.

(** A parameter with a default: [f(x = d)] takes [d] when [x] is [undefined]. *)
Definition or_default (x d : Value) : Value :=
  match x with VUndefined => d | _ => x end.

(** [{ id: doc.id, ...doc.data() }]: the fields are spread after [id]. *)
Definition with_id (doc_id : string) (data : Obj) : Obj :=
  spread (obj [("id", VStr doc_id)]) data.

(** [xs.forEach(x => { ... })] over a body that updates a local object. *)
Fixpoint forEach {A S} (xs : list A) (body : S -> A -> M S) (s : S) : M S :=
  match xs with
  | [] => ret s
  | x :: xs' => s' <- body s x ;; forEach xs' body s'
  end.

End Idioms.
Export Idioms.

(** ** lib/firebase/firestore.js *)

Module Firestore.

Module COLLECTIONS.
Definition USERS := "users".
Definition STATEMENTS := "statements".
Definition TRANSACTIONS := "transactions".
Definition CATEGORIES := "categories".
Definition EXPORT_LOGS := "exportLogs".
End COLLECTIONS.

(** [catch (error) { console.error(...); return { success: false, error: error.message }; }] *)
Definition report {A} (error : Thrown) : M (Result A) :=
  ret (Failure (message_of error)).

(** Payload: the [id] of the new document. *)
Definition createDocument (collectionName : string) (data : Obj) : M (Result string) :=
  try_catch
    (docRef <- addDoc collectionName
                 (put "updatedAt" serverTimestamp (put "createdAt" serverTimestamp data)) ;;
     ret (Success docRef))
    report.

Definition updateDocument (collectionName docId : string) (data : Obj) : M (Result unit) :=
  try_catch
    (updateDoc collectionName docId (put "updatedAt" serverTimestamp data) ;;;
     ret (Success tt))
    report.

Definition deleteDocument (collectionName docId : string) : M (Result unit) :=
  try_catch
    (deleteDoc collectionName docId ;;;
     ret (Success tt))
    report.

(** Payload: [data]. *)
Definition getDocument (collectionName docId : string) : M (Result Obj) :=
  try_catch
    (docSnap <- getDoc collectionName docId ;;
     match ds_data docSnap with
     | Some data => ret (Success (with_id (ds_id docSnap) data))
     | None => ret (Failure (VStr "Document not found"))
     end)
    report.

Definition saveStatement (userId statementData : Value) : M (Result string) :=
  try_catch
    (fileName <- prop statementData "fileName" ;;
     fileSize <- prop statementData "fileSize" ;;
     fileUrl <- prop statementData "fileUrl" ;;
     bankName <- prop statementData "bankName" ;;
     accountNumber <- prop statementData "accountNumber" ;;
     statementPeriod <- prop statementData "statementPeriod" ;;
     totalTransactions <- prop statementData "totalTransactions" ;;
     processingTime <- prop statementData "processingTime" ;;
     metadata <- prop statementData "metadata" ;;
     let statement := obj [
       ("userId", userId);
       ("fileName", fileName);
       ("fileSize", fileSize);
       ("fileUrl", fileUrl);
       ("bankName", bankName);
       ("accountNumber", accountNumber);
       ("statementPeriod", statementPeriod);
       ("totalTransactions", totalTransactions);
       ("status", VStr "processed");
       ("processingTime", processingTime);
       ("metadata", js_or metadata (VObj ∅)) ] in
     createDocument COLLECTIONS.STATEMENTS statement)
    report.

(** Payload: [data], the statements found. *)
Definition getUserStatements (userId limitCount : Value) : M (Result (list Obj)) :=
  let limitCount := or_default limitCount (VNum 10) in
  try_catch
    (let q := mkQuery COLLECTIONS.STATEMENTS
                [WhereEq "userId" userId; OrderBy "createdAt" Desc; Limit limitCount] in
     querySnapshot <- getDocs q ;;
     let statements := map (fun doc => with_id (snap_id doc) (snap_data doc)) querySnapshot in
     ret (Success statements))
    report.

(** Payload: [count]. *)
Definition saveTransactions (statementId : Value) (transactions : list Value)
    : M (Result nat) :=
  try_catch
    (batch <- forEach transactions (fun batch transaction =>
       transactionRef <- newDocRef ;;
       date <- prop transaction "date" ;;
       description <- prop transaction "description" ;;
       amount <- prop transaction "amount" ;;
       type <- prop transaction "type" ;;
       category <- prop transaction "category" ;;
       subcategory <- prop transaction "subcategory" ;;
       balance <- prop transaction "balance" ;;
       reference <- prop transaction "reference" ;;
       isRecurring <- prop transaction "isRecurring" ;;
       tags <- prop transaction "tags" ;;
       ret (batch_set batch COLLECTIONS.TRANSACTIONS transactionRef (obj [
         ("statementId", statementId);
         ("date", date);
         ("description", description);
         ("amount", amount);
         ("type", type);
         ("category", category);
         ("subcategory", subcategory);
         ("balance", balance);
         ("reference", reference);
         ("isRecurring", js_or isRecurring (VBool false));
         ("tags", js_or tags (VArr []));
         ("createdAt", serverTimestamp);
         ("updatedAt", serverTimestamp) ]))) writeBatch ;;
     batch_commit batch ;;;
     ret (Success (length transactions)))
    report.

(** Payload: [data], the transactions found. *)
Definition getTransactionsByStatement (statementId : Value) : M (Result (list Obj)) :=
  try_catch
    (let q := mkQuery COLLECTIONS.TRANSACTIONS
                [WhereEq "statementId" statementId; OrderBy "date" Desc] in
     querySnapshot <- getDocs q ;;
     let transactions := map (fun doc => with_id (snap_id doc) (snap_data doc)) querySnapshot in
     ret (Success transactions))
    report.

Definition getUserTransactions (userId filters : Value) : M (Result (list Obj)) :=
  let filters := or_default filters (VObj ∅) in
  try_catch
    (statementsResult <- getUserStatements userId (VNum 100) ;;
     match statementsResult with
     | Failure e => ret (Failure e)
     | Success data =>
         let statementIds := map (fun stmt => field stmt "id") data in
         if Nat.eqb (length statementIds) 0 then ret (Success [])
         else
           let q := mkQuery COLLECTIONS.TRANSACTIONS
                      [WhereIn "statementId" (take 10 statementIds); OrderBy "date" Desc] in
           category <- prop filters "category" ;;
           let q := if truthy category then query q (WhereEq "category" category) else q in
           limit <- prop filters "limit" ;;
           let q := if truthy limit then query q (Limit limit) else q in
           querySnapshot <- getDocs q ;;
           let transactions :=
             map (fun doc => with_id (snap_id doc) (snap_data doc)) querySnapshot in
           ret (Success transactions)
     end)
    report.

Definition updateTransactionCategory (transactionId : string) (category subcategory : Value)
    : M (Result unit) :=
  try_catch
    (updateDocument COLLECTIONS.TRANSACTIONS transactionId
       (obj [("category", category); ("subcategory", subcategory)]))
    report.

Definition logExport (userId exportData : Value) : M (Result string) :=
  try_catch
    (exportType <- prop exportData "exportType" ;;
     format <- prop exportData "format" ;;
     filters <- prop exportData "filters" ;;
     recordCount <- prop exportData "recordCount" ;;
     fileSize <- prop exportData "fileSize" ;;
     downloadUrl <- prop exportData "downloadUrl" ;;
     let exportLog := obj [
       ("userId", userId);
       ("exportType", exportType);
       ("format", format);
       ("filters", filters);
       ("recordCount", recordCount);
       ("fileSize", fileSize);
       ("downloadUrl", downloadUrl) ] in
     createDocument COLLECTIONS.EXPORT_LOGS exportLog)
    report.

End Firestore.
Export Firestore.

(** ** lib/firebase/auth.js *)

(** The module [./config] is not part of the sources at hand.  Of what it
    exports, the code uses the handles [auth], [db] and [storage] (here: the
    [World]) and [handleFirebaseError], which turns a caught error into the
    [error] of a reply; it is taken as a parameter. *)
Class Config := {
  handleFirebaseError : Thrown -> Value }.

Module Auth.

Section WithConfig.
Context `{Config}.

(** [catch (error) { return { success: false, error: handleFirebaseError(error) }; }] *)
Definition refuse {A} (error : Thrown) : M (Result A) :=
  ret (Failure (handleFirebaseError error)).

(** Returns [userRef] (here the path of the document), or [undefined] when
    there is no user. *)
Definition createUserDocument (user : option User) (additionalData : Value)
    : M (option (string * string)) :=
  let additionalData := or_default additionalData (VObj ∅) in
  match user with
  | None => ret None
  | Some user =>
      let userRef := ("users", uid user) in
      userDoc <- getDoc (fst userRef) (snd userRef) ;;
      (if negb (ds_exists userDoc) then
         try_catch
           (name <- (if truthy (displayName user) then ret (displayName user)
                     else (extra <- prop additionalData "displayName" ;;
                           ret (js_or extra (VStr "")))) ;;
            setDoc (fst userRef) (snd userRef)
              (spread
                 (obj [
                    ("displayName", name);
                    ("email", email user);
                    ("photoURL", js_or (photoURL user) (VStr ""));
                    ("createdAt", serverTimestamp);
                    ("updatedAt", serverTimestamp);
                    ("settings", VObj (obj [
                       ("currency", VStr "MUR");
                       ("language", VStr "en");
                       ("theme", VStr "light");
                       ("notifications", VBool true) ]));
                    ("profile", VObj (obj [
                       ("firstName", VStr "");
                       ("lastName", VStr "");
                       ("phone", VStr "");
                       ("dateOfBirth", VNull);
                       ("occupation", VStr "");
                       ("bankAccounts", VArr []) ]));
                    ("subscription", VObj (obj [
                       ("plan", VStr "free");
                       ("startDate", serverTimestamp);
                       ("endDate", VNull);
                       ("features", VObj (obj [
                          ("maxStatements", VNum 10);
                          ("maxExports", VNum 5);
                          ("advancedAnalytics", VBool false) ])) ])) ])
                 (own_props additionalData)))
           (fun error => ret tt)
       else ret tt) ;;;
      ret (Some userRef)
  end.

(** Payload: [user]. *)
Definition signUp (email password : string) (displayName : Value) : M (Result Obj) :=
  let displayName := or_default displayName (VStr "") in
  try_catch
    (user <- createUserWithEmailAndPassword email password ;;
     user <- (if truthy displayName then updateProfile user displayName else ret user) ;;
     createUserDocument (Some user) (VObj (obj [("displayName", displayName)])) ;;;
     ret (Success (obj [
       ("uid", VStr (uid user));
       ("email", Platform.email user);
       ("displayName", js_or (Platform.displayName user) displayName) ])))
    refuse.

Definition signIn (email password : string) : M (Result Obj) :=
  try_catch
    (user <- signInWithEmailAndPassword email password ;;
     ret (Success (obj [
       ("uid", VStr (uid user));
       ("email", Platform.email user);
       ("displayName", Platform.displayName user) ])))
    refuse.

Definition signInWithGoogle : M (Result Obj) :=
  try_catch
    (user <- signInWithPopup ;;
     createUserDocument (Some user) VUndefined ;;;
     ret (Success (obj [
       ("uid", VStr (uid user));
       ("email", Platform.email user);
       ("displayName", Platform.displayName user);
       ("photoURL", photoURL user) ])))
    refuse.

Definition logOut : M (Result unit) :=
  try_catch
    (signOut ;;;
     ret (Success tt))
    refuse.

(** Payload: [message]. *)
Definition resetPassword (email : string) : M (Result string) :=
  try_catch
    (sendPasswordResetEmail email ;;;
     ret (Success "Password reset email sent successfully."))
    refuse.

End WithConfig.

(** Returns the data of the user document, or [null]. *)
Definition getCurrentUserData (uid : Value) : M (option Obj) :=
  if negb (truthy uid) then ret None
  else
    try_catch
      (match uid with
       | VStr uid =>
           userDoc <- getDoc "users" uid ;;
           ret (ds_data userDoc)
       | _ => throw (ErrorObj "TypeError: the path segments of doc() must be strings")
       end)
      (fun error => ret None).

Definition getCurrentUser : M (option User) := fun w => (Return (current_user w), w).

End Auth.
Export Auth.

(** ** lib/firebase/storage.js *)

Module Storage.

Inductive Validation :=
| Valid
| Invalid (error : string).

Definition isValid (v : Validation) : bool :=
  match v with Valid => true | Invalid _ => false end.

Definition maxSize : Z := 10 * 1024 * 1024.

Definition allowedTypes : list string := [
  "application/pdf";
  "image/jpeg";
  "image/jpg";
  "image/png";
  "image/webp" ].

(** [file] is [None] for [null] and [undefined]. *)
Definition validateFile (file : option File) : Validation :=
  match file with
  | None => Invalid "No file selected"
  | Some file =>
      if Z.ltb maxSize (file_size file) then
        Invalid "File size must be less than 10MB"
      else if negb (bool_decide (file_type file ∈ allowedTypes)) then
        Invalid "File type not supported. Please upload PDF, JPEG, PNG, or WebP files."
      else Valid
  end.

(** Payload of an upload: [url] and [metadata]. *)
Record Uploaded := mkUploaded {
  url : string;
  metadata : Metadata }.

Definition uploaded (downloadURL : string) (metadata : Metadata) : Uploaded :=
  mkUploaded downloadURL
    (mkMetadata (md_name metadata) (md_size metadata) (md_contentType metadata)
                (md_timeCreated metadata) (md_fullPath metadata)).

(** A progress callback of the caller.  It is not part of this code; its
    calls are recorded in the log.  It is called with
    [bytesTransferred / totalBytes * 100], kept here as the two counts. *)
Inductive Callback := ProgressCallback.

Definition invoke (cb : Callback) (transferred total : Z) : M unit := fun w =>
  (Return tt, with_log (log w ++ [OnProgress transferred total]) w).

(** The upload task of [uploadBytesResumable]: it transfers in the
    background and then ends in an error or in completion.  One
    [state_changed] snapshot is delivered, when all bytes are through. *)
Definition run_upload (path : string) (f : File) (next : Z -> Z -> M unit) : M unit :=
  call (UploadBytesResumable path f) (fun w =>
    next (file_size f) (file_size f) (put_object path f w)).

(** [{ success: false, error: error.message }] as a value handed to [reject]. *)
Definition failure_object (error : Thrown) : Thrown :=
  PlainObj (obj [("success", VBool false); ("error", message_of error)]).

(** [catch (error) { console.error(...); return { success: false, error: error.message }; }] *)
Definition decline {A} (error : Thrown) : M (Result A) :=
  ret (Failure (message_of error)).

(** The [try] block of [uploadFile] ends either with a reply or, with a
    progress callback, by returning the promise built around the upload task;
    that promise is not awaited inside the [try], so it settles past the
    [catch], and the promise of [uploadFile] settles as it does.  A file
    that passed the validation is not [null]; the case is there for
    totality. *)
Definition uploadFile (file : option File) (path : string) (onProgress : option Callback)
    : M (Result Uploaded) :=
  returned <-
    try_catch
      (match validateFile file, file with
       | Invalid error, _ => ret (inl (Failure (VStr error)))
       | Valid, None => throw (ErrorObj "TypeError: no file")
       | Valid, Some file =>
           let storageRef := path in
           match onProgress with
           | Some onProgress =>
               ret (inr (
                 (* uploadTask.on('state_changed', next, error, complete) *)
                 try_catch
                   (run_upload storageRef file (fun transferred total =>
                      invoke onProgress transferred total))
                   (fun error => throw (failure_object error)) ;;;
                 try_catch
                   (downloadURL <- getDownloadURL storageRef ;;
                    metadata <- getMetadata storageRef ;;
                    ret (Success (uploaded downloadURL metadata)))
                   (fun error => throw (failure_object error))))
           | None =>
               uploadBytes storageRef file ;;;
               downloadURL <- getDownloadURL storageRef ;;
               metadata <- getMetadata storageRef ;;
               ret (inl (Success (uploaded downloadURL metadata)))
           end
       end)
      (fun error => ret (inl (Failure (message_of error)))) ;;
  match returned with
  | inl reply => ret reply
  | inr promise => promise
  end.

(** [Date.now()] reads the clock. *)
Definition uploadStatement (file : option File) (userId : string)
    (onProgress : option Callback) : M (Result Uploaded) :=
  timestamp <- (fun w => (Return (now w), w)) ;;
  match file with
  | None => throw (ErrorObj "TypeError: Cannot read properties of null")
  | Some f =>
      let fileName := pretty timestamp +:+ "_" +:+ file_name f in
      let path := "statements/" +:+ userId +:+ "/" +:+ fileName in
      uploadFile file path onProgress
  end.

Definition deleteFile (filePath : string) : M (Result unit) :=
  try_catch
    (deleteObject filePath ;;;
     ret (Success tt))
    decline.

(** Payload: [url]. *)
Definition getFileURL (filePath : string) : M (Result string) :=
  try_catch
    (url <- getDownloadURL filePath ;;
     ret (Success url))
    decline.

(** Payload: [metadata]. *)
Definition getFileMetadata (filePath : string) : M (Result Metadata) :=
  try_catch
    (metadata <- getMetadata filePath ;;
     ret (Success (mkMetadata (md_name metadata) (md_size metadata)
                     (md_contentType metadata) (md_timeCreated metadata)
                     (md_fullPath metadata))))
    decline.

(** Payload of the batch delete: [results]. *)
Record Tally := mkTally {
  successful : nat;
  failed : nat;
  total : nat }.

(** The deletions are started in the order of the paths, each of them issues
    its platform call at once, and [Promise.allSettled] collects their
    replies in that order. *)
Definition deleteFiles (filePaths : list string) : M (Result Tally) :=
  try_catch
    (let deletePromises := map (fun path => deleteFile path) filePaths in
     results <- allSettled deletePromises ;;
     let successful :=
       List.filter (fun result =>
                      match result with
                      | Fulfilled value => is_success value
                      | Rejected _ => false
                      end) results in
     let failed :=
       List.filter (fun result =>
                      match result with
                      | Rejected _ => true
                      | Fulfilled value => negb (is_success value)
                      end) results in
     ret (Success (mkTally (length successful) (length failed) (length filePaths))))
    decline.

End Storage.
Export Storage.

(** * Vocabulary of the statements *)

Local Open Scope list_scope.

(** The computation always ends in a value: its promise is never rejected. *)
Definition total_reply {A} (m : M A) : Prop :=
  ∀ w, ∃ a w', m w = (Return a, w').

(** Every run ends in a reply, and a run whose next platform call fails ends
    in [{ success: false, error }]. *)
Definition guarded {A} (m : M (Result A)) : Prop :=
  total_reply m ∧
  ∀ w msg, fault w = Some msg → ∃ error w', m w = (Return (Failure error), w').

(** A body that throws at once when the next platform call fails. *)
Definition fails_fast {A} (body : M A) : Prop :=
  ∀ w msg, fault w = Some msg → ∃ e w', body w = (Throw e, w').

(** From this world on, no platform call fails. *)
Definition calm (w : World) : Prop := Forall (fun f => f = None) (faults w).

(** What [v.k] gives when it does not throw. *)
Definition peek (v : Value) (k : string) : Value :=
  match v with VObj o => field o k | _ => VUndefined end.

(** The world after one more reference with an automatic id was made. *)
Definition issue (w : World) : World := with_issued ({[auto_id w]} ∪ issued w) w.

(** The record [saveTransactions] puts in the batch for a transaction. *)
Definition transaction_record (statementId transaction : Value) : Obj :=
  obj [
    ("statementId", statementId);
    ("date", peek transaction "date");
    ("description", peek transaction "description");
    ("amount", peek transaction "amount");
    ("type", peek transaction "type");
    ("category", peek transaction "category");
    ("subcategory", peek transaction "subcategory");
    ("balance", peek transaction "balance");
    ("reference", peek transaction "reference");
    ("isRecurring", js_or (peek transaction "isRecurring") (VBool false));
    ("tags", js_or (peek transaction "tags") (VArr []));
    ("createdAt", serverTimestamp);
    ("updatedAt", serverTimestamp) ].

(** [fired paths w replies w']: the deletions of [paths] are run one after
    the other from [w], each one through [deleteFile], and give [replies]. *)
Inductive fired : list string → World → list (Result unit) → World → Prop :=
| fired_nil w : fired [] w [] w
| fired_cons path paths w reply w1 replies w2 :
    deleteFile path w = (Return reply, w1) →
    fired paths w1 replies w2 →
    fired (path :: paths) w (reply :: replies) w2.

Definition successes {A} (replies : list (Result A)) : nat :=
  length (List.filter is_success replies).

Definition failures {A} (replies : list (Result A)) : nat :=
  length (List.filter (fun r => negb (is_success r)) replies).

(** The files that must be turned away, in the words of the specification:
    absent, larger than 10 MB, or of a content type outside the list. *)
Definition spec_refused (file : option File) : Prop :=
  match file with
  | None => True
  | Some f =>
      10 * 1024 * 1024 < file_size f ∨
      file_type f ∉ ["application/pdf"; "image/jpeg"; "image/jpg"; "image/png"; "image/webp"]
  end.

(** The platform call that starts the transfer. *)
Definition upload_call (onProgress : option Callback) (path : string) (f : File) : Call :=
  match onProgress with
  | Some _ => UploadBytesResumable path f
  | None => UploadBytes path f
  end.





(** The defaults of a new user document, in the words of the source. *)
Definition spec_default_settings : Obj :=
  {[ "currency" := VStr "MUR"; "language" := VStr "en"; "theme" := VStr "light";
     "notifications" := VBool true ]}.

Definition spec_default_profile : Obj :=
  {[ "firstName" := VStr ""; "lastName" := VStr ""; "phone" := VStr "";
     "dateOfBirth" := VNull; "occupation" := VStr ""; "bankAccounts" := VArr [] ]}.

Definition spec_default_subscription (start : nat) : Obj :=
  {[ "plan" := VStr "free"; "startDate" := VTime start; "endDate" := VNull;
     "features" := VObj {[ "maxStatements" := VNum 10; "maxExports" := VNum 5;
                           "advancedAnalytics" := VBool false ]} ]}.

(** ** Concrete worlds *)

Module Examples.

(** A new project: no account, no document, no file, a healthy platform. *)
Definition empty_world : World := mkWorld ∅ None None ∅ ∅ ∅ 0 [] [].

(** A [./config] whose [handleFirebaseError] passes the message on. *)
Definition plain : Config := {| handleFirebaseError := message_of |}.

(** The fourth platform call from now fails: for [signUp] with a display
    name, that is the write of the user document. *)
Definition outage_world : World :=
  with_faults [None; None; None; Some "unavailable"] empty_world.

(** Ann after her sign-up during the outage. *)
Definition ann_world : World :=
  snd (@signUp plain "ann@example.com" "secret" (VStr "Ann") outage_world).

Definition ann_google : User :=
  mkUser "g-1" (VStr "ann@gmail.com") (VStr "Ann") (VStr "https://lh3.googleusercontent.com/a").

(** Ann is about to pick her Google account in the popup. *)
Definition google_world : World :=
  mkWorld ∅ (Some ann_google) None ∅ ∅ ∅ 7 [] [].

(** Ann comes back: her user document is there. *)
Definition returning_world : World := snd (@signInWithGoogle plain google_world).


Definition statement_of (user : string) (created : nat) : Obj :=
  {[ "userId" := VStr user; "createdAt" := VTime created; "status" := VStr "processed" ]}.

Definition transaction_of (statement date : string) (amount : Z) : Obj :=
  {[ "statementId" := VStr statement; "date" := VStr date; "amount" := VNum amount ]}.





Definition pdf : File := mkFile "january.pdf" 4096 "application/pdf".

(** The next platform call fails: a cancelled transfer, a store out of reach. *)
Definition failing_world : World := with_faults [Some "storage/canceled"] empty_world.

Definition offline_world : World := with_faults [Some "unavailable"] empty_world.

(** A statement was filed in the new project. *)
Definition filed_world : World :=
  snd (createDocument "statements" {[ "fileName" := VStr "january.pdf" ]} empty_world).



Definition groceries : Value :=
  VObj {[ "date" := VStr "2024-01-05"; "amount" := VNum 120; "category" := VStr "food" ]}.

(** The user [u] has one statement with two transactions. *)
Definition ledger_db : gmap (string * string) Obj :=
  list_to_map [
    (("statements", "s1"), statement_of "u" 1);
    (("transactions", "t1"),
       <["category" := VStr "food"]> (transaction_of "s1" "2024-01-05" 120));
    (("transactions", "t2"),
       <["category" := VStr "rent"]> (transaction_of "s1" "2024-01-01" 900)) ].

Definition ledger_world : World := mkWorld ∅ None None ledger_db ∅ ∅ 2 [] [].

Definition food_only : Value := VObj {[ "category" := VStr "food"; "limit" := VNum 5 ]}.

(** The read of the user document goes through, the write fails. *)
Definition flaky_world : World := with_faults [None; Some "unavailable"] google_world.

(** Ann's user document. *)
Definition ann_document : Obj := default ∅ (db returning_world !! ("users", "g-1")).

(** The statement of January is in the store. *)
Definition january : string := "statements/u/january.pdf".

Definition stored_world : World := snd (uploadFile (Some pdf) january None empty_world).

(** Ann is signed in, and the platform is out of reach. *)
Definition stranded_world : World := with_faults [Some "unavailable"] returning_world.

End Examples.

(** * The rest of the code *)

(** ** lib/firebase/storage.js: names of stored files *)

Module Paths.

(** [name.split('.').pop()]: what follows the last dot, the whole name when
    it has no dot. *)
Fixpoint last_segment_from (acc s : string) : string :=
  match s with
  | EmptyString => acc
  | String c s' =>
      if Ascii.eqb c "."%char then last_segment_from "" s'
      else last_segment_from (acc +:+ String c EmptyString) s'
  end.

Definition extension (originalName : string) : string :=
  last_segment_from "" originalName.

(** The members every object literal inherits: [pathMap[fileType]] finds
    them too, and they are truthy. *)
Definition inherited_members : list string := [
  "constructor"; "hasOwnProperty"; "isPrototypeOf"; "propertyIsEnumerable";
  "toLocaleString"; "toString"; "valueOf"; "__proto__";
  "__defineGetter__"; "__defineSetter__"; "__lookupGetter__"; "__lookupSetter__" ].

(** What [generateFilePath] returns: a path, or an inherited member of
    [pathMap] when [fileType] names one. *)
Inductive Generated :=
| Path (path : string)
| Member (name : string).

(** [Date.now()] reads the clock; [random] stands for
    [Math.random().toString(36).substring(7)]. *)
Definition generateFilePath (random userId fileType originalName : string) : M Generated :=
  timestamp <- (fun w => (Return (now w), w)) ;;
  let extension := extension originalName in
  let fileName := pretty timestamp +:+ "_" +:+ random +:+ "." +:+ extension in
  ret (if String.eqb fileType "statement" then
         Path ("statements/" +:+ userId +:+ "/" +:+ fileName)
       else if String.eqb fileType "export" then
         Path ("exports/" +:+ userId +:+ "/" +:+ fileName)
       else if String.eqb fileType "profile" then
         Path ("profiles/" +:+ userId +:+ "/" +:+ fileName)
       else if bool_decide (fileType ∈ inherited_members) then
         Member fileType
       else
         Path ("misc/" +:+ userId +:+ "/" +:+ fileName)).

End Paths.

(** ** contexts/AuthContext.js *)

Module AuthContext.

(** The state of [AuthProvider]: the four [useState] cells. *)
Record State := mkState {
  user : option Obj;
  userData : option Obj;
  loading : bool;
  error : Value }.

(** [useState(null)], [useState(null)], [useState(true)], [useState(null)] *)
Definition initial : State := mkState None None true VNull.

(** The functions of the provider run on the cells and on the platform. *)
Definition C (A : Type) : Type := State → World → Outcome A * State * World.

Definition pure {A} (a : A) : C A := fun s w => (Return a, s, w).

Definition and_then {A B} (m : C A) (k : A → C B) : C B := fun s w =>
  match m s w with
  | (Return a, s', w') => k a s' w'
  | (Throw e, s', w') => (Throw e, s', w')
  end.

(** [await f(...)] for a function [f] of the service modules. *)
Definition await {A} (m : M A) : C A := fun s w =>
  let '(o, w') := m w in (o, s, w').

Definition setUser (v : option Obj) : C unit := fun s w =>
  (Return tt, mkState v (userData s) (loading s) (error s), w).

Definition setUserData (v : option Obj) : C unit := fun s w =>
  (Return tt, mkState (user s) v (loading s) (error s), w).

Definition setLoading (v : bool) : C unit := fun s w =>
  (Return tt, mkState (user s) (userData s) v (error s), w).

Definition setError (v : Value) : C unit := fun s w =>
  (Return tt, mkState (user s) (userData s) (loading s) v, w).

(** [try { body } catch (error) { handler }] *)
Definition catching {A} (body : C A) (handler : Thrown → C A) : C A := fun s w =>
  match body s w with
  | (Return a, s', w') => (Return a, s', w')
  | (Throw e, s', w') => handler e s' w'
  end.

(** [try { body } finally { final }]: [final] runs in both cases, and the
    outcome of [body] stands unless [final] throws. *)
Definition finally {A} (body : C A) (final : C unit) : C A := fun s w =>
  let '(o, s1, w1) := body s w in
  match final s1 w1 with
  | (Return _, s2, w2) => (o, s2, w2)
  | (Throw e, s2, w2) => (Throw e, s2, w2)
  end.

Declare Scope provider_scope.
Notation "x <- m ;; k" := (and_then m (fun x => k))
  (at level 100, m at next level, right associativity) : provider_scope.
Notation "m ;;; k" := (and_then m (fun _ => k))
  (at level 100, right associativity) : provider_scope.
Local Open Scope provider_scope.

Section WithConfig.
Context `{Config}.

(** The reply carries no payload: [{ success: true }]. *)
Definition login (email password : string) : C (Result unit) :=
  setError VNull ;;;
  setLoading true ;;;
  finally
    (catching
       (result <- await (signIn email password) ;;
        match result with
        | Failure error => setError error ;;; pure (Failure error)
        | Success _ => pure (Success tt)
        end)
       (fun error => setError (message_of error) ;;; pure (Failure (message_of error))))
    (setLoading false).

Definition register (email password : string) (displayName : Value) : C (Result unit) :=
  setError VNull ;;;
  setLoading true ;;;
  finally
    (catching
       (result <- await (signUp email password displayName) ;;
        match result with
        | Failure error => setError error ;;; pure (Failure error)
        | Success _ => pure (Success tt)
        end)
       (fun error => setError (message_of error) ;;; pure (Failure (message_of error))))
    (setLoading false).

Definition loginWithGoogle : C (Result unit) :=
  setError VNull ;;;
  setLoading true ;;;
  finally
    (catching
       (result <- await signInWithGoogle ;;
        match result with
        | Failure error => setError error ;;; pure (Failure error)
        | Success _ => pure (Success tt)
        end)
       (fun error => setError (message_of error) ;;; pure (Failure (message_of error))))
    (setLoading false).

(** The reply of [logOut] is awaited and not looked at. *)
Definition logout : C (Result unit) :=
  setError VNull ;;;
  catching
    (await logOut ;;;
     setUser None ;;;
     setUserData None ;;;
     pure (Success tt))
    (fun error => setError (message_of error) ;;; pure (Failure (message_of error))).

(** Payload: [message]. *)
Definition forgotPassword (email : string) : C (Result string) :=
  setError VNull ;;;
  catching
    (result <- await (resetPassword email) ;;
     match result with
     | Failure error => setError error ;;; pure (Failure error)
     | Success message => pure (Success message)
     end)
    (fun error => setError (message_of error) ;;; pure (Failure (message_of error))).

End WithConfig.

(** The observer registered by the effect of the provider:
    [onAuthStateChange(async (firebaseUser) => { ... })]. *)
Definition authStateChanged (firebaseUser : option User) : C unit :=
  match firebaseUser with
  | Some firebaseUser =>
      let userInfo := obj [
        ("uid", VStr (uid firebaseUser));
        ("email", email firebaseUser);
        ("displayName", displayName firebaseUser);
        ("photoURL", photoURL firebaseUser) ] in
      setUser (Some userInfo) ;;;
      userData <- await (getCurrentUserData (VStr (uid firebaseUser))) ;;
      setUserData userData
  | None =>
      setUser None ;;;
      setUserData None
  end ;;;
  setLoading false.

End AuthContext.

(** ** Vocabulary of the further properties *)


(** [null] and [undefined] have no properties to read. *)
Definition nullish (v : Value) : Prop := v = VNull ∨ v = VUndefined.





(** A string without a dot. *)
Fixpoint dotless (s : string) : bool :=
  match s with
  | EmptyString => true
  | String c s' => negb (Ascii.eqb c "."%char) && dotless s'
  end.

(** The folders of [pathMap], by file type. *)
Definition folders : list (string * string) :=
  [("statement", "statements"); ("export", "exports"); ("profile", "profiles")].

(** What the provider answers to a reply of the service: the payload is
    dropped. *)
Definition verdict {A} (reply : Result A) : Result unit :=
  match reply with
  | Success _ => Success tt
  | Failure error => Failure error
  end.

(** The [error] cell after a reply of the service. *)
Definition error_after {A} (reply : Result A) : Value :=
  match reply with
  | Success _ => VNull
  | Failure error => error
  end.

(** The user object the observer keeps. *)
Definition userInfo_of (firebaseUser : User) : Obj :=
  obj [ ("uid", VStr (uid firebaseUser));
        ("email", email firebaseUser);
        ("displayName", displayName firebaseUser);
        ("photoURL", photoURL firebaseUser) ].

(** * Properties *)

(** ** The monad and the platform calls *)

Lemma bind_ret_l {A B} (a : A) (k : A → M B) w : bind (ret a) k w = k a w.
Proof. reflexivity. Qed.

Lemma bind_throw {A B} e (k : A → M B) w : bind (throw e) k w = (Throw e, w).
Proof. reflexivity. Qed.

Lemma try_catch_total {A} (body : M A) (handler : Thrown → M A) :
  (∀ e, total_reply (handler e)) → total_reply (try_catch body handler).
Proof.
  intros Hh w. unfold try_catch.
  destruct (body w) as [[a|e] w1]; [by eauto|apply Hh].
Qed.

(** Runs a computation by cases on the faults and the lookups it meets. *)
Ltac exec :=
  repeat first
    [ progress cbn [fst snd]
    | progress unfold bind, try_catch, ret, throw, call
    | match goal with
      | |- context [match fault ?w with _ => _ end] => destruct (fault w) eqn:?
      | |- context [match ?m !! ?k with _ => _ end] => destruct (m !! k) eqn:?
      end ].

Lemma calm_fault w : calm w → fault w = None.
Proof. unfold calm, fault. destruct 1 as [|? ? ->]; done. Qed.

Lemma calm_enter c w : calm w → calm (enter c w).
Proof. unfold calm. cbn. destruct 1; [constructor|done]. Qed.

Lemma calm_with_current_user u w : calm w → calm (with_current_user u w).
Proof. done. Qed.

Lemma calm_with_accounts a w : calm w → calm (with_accounts a w).
Proof. done. Qed.

Lemma calm_with_db d w : calm w → calm (with_db d w).
Proof. done. Qed.

Lemma calm_with_now t w : calm w → calm (with_now t w).
Proof. done. Qed.

Lemma calm_with_issued i w : calm w → calm (with_issued i w).
Proof. done. Qed.

Lemma calm_with_files f w : calm w → calm (with_files f w).
Proof. done. Qed.

Lemma calm_with_log l w : calm w → calm (with_log l w).
Proof. done. Qed.

Create HintDb calm.
#[local] Hint Resolve calm_enter calm_with_current_user calm_with_accounts calm_with_db
  calm_with_now calm_with_issued calm_with_files calm_with_log : calm.

Lemma call_calm {A} c (effect : M A) w : calm w → call c effect w = effect (enter c w).
Proof. intros Hc. unfold call. by rewrite calm_fault. Qed.

Ltac calmly := rewrite call_calm by eauto 10 with calm.

(** ** Objects *)

Lemma field_empty k : field ∅ k = VUndefined.
Proof. unfold field. by rewrite lookup_empty. Qed.

Lemma with_id_lookup_ne doc_id (data : Obj) k :
  k ≠ "id" → with_id doc_id data !! k = data !! k.
Proof.
  intros Hk. unfold with_id, spread, obj; cbn; unfold put.
  rewrite lookup_union, lookup_insert_ne, lookup_empty by done. by destruct (data !! k).
Qed.

Lemma with_id_lookup_id doc_id (data : Obj) :
  with_id doc_id data !! "id" = Some (default (VStr doc_id) (data !! "id")).
Proof.
  unfold with_id, spread, obj; cbn; unfold put.
  rewrite lookup_union, lookup_insert_eq. by destruct (data !! "id").
Qed.

Lemma with_id_lookup_field doc_id (data : Obj) k v :
  data !! k = Some v → with_id doc_id data !! k = Some v.
Proof. intros Hk. unfold with_id, spread. by apply lookup_union_Some_l. Qed.


Lemma transaction_record_statementId statementId transaction :
  transaction_record statementId transaction !! "statementId" = Some statementId.
Proof.
  unfold transaction_record, obj; cbn [foldl fst snd]; unfold put.
  by rewrite !lookup_insert_ne, lookup_insert_eq by done.
Qed.

(** ** The order on values *)

Lemma string_leb_iff a b :
  String.leb a b = true ↔ OrderedTypeEx.String_as_OT.lt a b ∨ a = b.
Proof.
  unfold String.leb.
  pose proof (OrderedTypeEx.String_as_OT.cmp_lt a b) as Hlt.
  pose proof (OrderedTypeEx.String_as_OT.cmp_eq a b) as Heq.
  unfold OrderedTypeEx.String_as_OT.cmp in *.
  destruct (String.compare a b); split; intros Hab; try done.
  - right. by apply Heq.
  - left. by apply Hlt.
  - destruct Hab as [Hab|Hab]; [by apply Hlt in Hab|by apply Heq in Hab].
Qed.

Lemma string_leb_trans a b c :
  String.leb a b = true → String.leb b c = true → String.leb a c = true.
Proof.
  rewrite !string_leb_iff. intros [H1| ->] [H2| ->]; auto.
  left. eapply OrderedTypeEx.String_as_OT.lt_trans; eauto.
Qed.

Lemma value_leb_total a b : value_leb a b = true ∨ value_leb b a = true.
Proof.
  destruct a as [| |x|x|x|x| | |], b as [| |y|y|y|y| | |];
    cbn; try (by left); try (by right).
  - destruct x, y; auto.
  - destruct (Z.leb_spec x y), (Z.leb_spec y x); auto; lia.
  - apply String.leb_total.
  - destruct (Nat.leb_spec x y), (Nat.leb_spec y x); auto; lia.
Qed.

Lemma value_leb_trans a b c :
  value_leb a b = true → value_leb b c = true → value_leb a c = true.
Proof.
  destruct a as [| |x|x|x|x| | |], b as [| |y|y|y|y| | |];
    cbn; try done; destruct c as [| |z|z|z|z| | |]; cbn; try done.
  - destruct x, y, z; done.
  - rewrite !Z.leb_le. lia.
  - apply string_leb_trans.
  - rewrite !Nat.leb_le. lia.
Qed.

#[local] Instance field_le_total f dir : Total (field_le f dir).
Proof. intros a b. destruct dir; cbn; apply value_leb_total. Qed.

#[local] Instance field_le_trans f dir : Transitive (field_le f dir).
Proof. intros a b c. destruct dir; cbn; eauto using value_leb_trans. Qed.

(** ** Queries *)

Lemma elem_of_collection_docs c d s :
  s ∈ collection_docs c d ↔ d !! (c, snap_id s) = Some (snap_data s).
Proof.
  unfold collection_docs. rewrite list_elem_of_omap. split.
  - intros ([[c' id] data] & Hin & Hs). apply elem_of_map_to_list in Hin. cbn in Hs.
    destruct (String.eqb_spec c' c) as [->|]; [|done]. by simplify_eq.
  - intros Hs. exists (c, snap_id s, snap_data s). split; [by apply elem_of_map_to_list|].
    cbn. rewrite String.eqb_refl. by destruct s.
Qed.

Lemma elem_of_merge_sort R `{∀ x y, Decision (R x y)} (l : list Snapshot) s :
  s ∈ merge_sort R l ↔ s ∈ l.
Proof. by rewrite merge_sort_Permutation. Qed.




Lemma elem_of_apply_limit ks : ∀ (l : list Snapshot) s, s ∈ apply_limit ks l → s ∈ l.
Proof.
  induction ks as [|k ks IH]; intros l s; [done|].
  destruct k as [| | |[]]; cbn; auto.
  intros Hs%IH. by eapply subseteq_take.
Qed.

Lemma elem_of_apply_order ks : ∀ (l : list Snapshot) s, s ∈ apply_order ks l ↔ s ∈ l.
Proof.
  induction ks as [|k ks IH]; intros l s; [done|].
  destruct k; cbn; auto. by rewrite elem_of_merge_sort.
Qed.

Lemma elem_of_run_query q d s :
  s ∈ run_query q d →
  d !! (q_collection q, snap_id s) = Some (snap_data s) ∧
  ∀ k, k ∈ q_constraints q → matches (snap_data s) k = true.
Proof.
  unfold run_query. intros Hs%elem_of_apply_limit%elem_of_apply_order.
  apply list_elem_of_filter in Hs as [Hm Hs]. split; [by apply elem_of_collection_docs|].
  intros k Hk. rewrite forallb_forall in Hm. apply Hm. by apply list_elem_of_In.
Qed.





(** ** Automatic ids and writes *)

Lemma auto_id_fresh w c : db w !! (c, auto_id w) = None.
Proof.
  destruct (db w !! (c, auto_id w)) as [d|] eqn:Hd; [|done]. exfalso.
  apply (is_fresh (issued w ∪ doc_ids (db w))).
  apply elem_of_union_r. unfold doc_ids. apply elem_of_map.
  exists (c, auto_id w). split; [done|]. apply elem_of_dom. by eexists.
Qed.

Lemma auto_id_not_issued w : auto_id w ∉ issued w.
Proof.
  intros Hin. apply (is_fresh (issued w ∪ doc_ids (db w))). by apply elem_of_union_l.
Qed.

Lemma addDoc_cases c data w :
  (∃ msg, fault w = Some msg ∧
     addDoc c data w = (Throw (ErrorObj msg), enter (AddDoc c data) w)) ∨
  (∃ id w', fault w = None ∧ addDoc c data w = (Return id, w') ∧
     db w !! (c, id) = None ∧
     db w' = <[(c, id) := stored (now w) data]> (db w)).
Proof.
  unfold addDoc, call. destruct (fault w) as [msg|]; [left; by eauto|right].
  unfold bind, newDocRef. cbn.
  eexists _, _. split; [done|]. split; [reflexivity|]. split; [|reflexivity].
  apply (auto_id_fresh (enter (AddDoc c data) w)).
Qed.

Lemma createDocument_cases c data w :
  (∃ id w', createDocument c data w = (Return (Success id), w') ∧
     db w !! (c, id) = None ∧
     db w' = <[(c, id) := stored (now w)
                 (put "updatedAt" serverTimestamp (put "createdAt" serverTimestamp data))]>
               (db w)) ∨
  (∃ error w', createDocument c data w = (Return (Failure error), w') ∧ db w' = db w).
Proof.
  unfold createDocument, try_catch, bind.
  destruct (addDoc_cases c
              (put "updatedAt" serverTimestamp (put "createdAt" serverTimestamp data)) w)
    as [(msg & Hf & ->)|(id & w' & Hf & -> & Hnone & Hdb)].
  - right. by eauto.
  - left. by eauto 10.
Qed.

Section Batch.
Context (body : WriteBatch → Value → M WriteBatch) (c : string) (record : Value → Obj).
Hypothesis body_spec : ∀ batch t w,
  body batch t w = (Return (batch_set batch c (auto_id w) (record t)), issue w) ∨
  ∃ e, body batch t w = (Throw e, issue w).

Lemma forEach_batch ts : ∀ batch w,
  ∃ o w', forEach ts body batch w = (o, w') ∧
    db w' = db w ∧ now w' = now w ∧ faults w' = faults w ∧ log w' = log w ∧
    issued w ⊆ issued w' ∧
    (match o with
     | Throw _ => True
     | Return batch' =>
         ∃ ids, length ids = length ts ∧ NoDup ids ∧
           (∀ id, id ∈ ids →
              (id ∉ issued w) ∧ id ∈ issued w' ∧ ∀ c', db w !! (c', id) = None) ∧
           batch' = batch ++ zip_with (fun id t => (c, id, record t)) ids ts
     end).
Proof.
  induction ts as [|t ts IH]; intros batch w.
  - exists (Return batch), w. repeat split; try done.
    exists []. repeat split; try done.
    + constructor.
    + by apply elem_of_nil in H.
    + by apply elem_of_nil in H.
    + by apply elem_of_nil in H.
    + by rewrite app_nil_r.
  - cbn [forEach]. unfold bind at 1.
    destruct (body_spec batch t w) as [->|[e ->]].
    + destruct (IH (batch_set batch c (auto_id w) (record t)) (issue w))
        as (o & w' & -> & Hdb & Hnow & Hfa & Hlog & Hiss & Ho).
      assert (Hsub : issued w ⊆ issued w').
      { intros x Hx. apply Hiss. cbn. by apply elem_of_union_r. }
      assert (Hnew : auto_id w ∈ issued w').
      { apply Hiss. cbn. by apply elem_of_union_l, elem_of_singleton. }
      exists o, w'. split; [done|]. repeat split; try done.
      destruct o as [batch'|]; [|done].
      destruct Ho as (ids & Hlen & Hnd & Hids & ->).
      exists (auto_id w :: ids). split; [simpl; congruence|]. split.
      { constructor; [|done]. intros Hin. destruct (Hids _ Hin) as [Hni _].
        apply Hni. cbn. by apply elem_of_union_l, elem_of_singleton. }
      split.
      { intros id [->|Hin]%elem_of_cons.
        - split; [apply auto_id_not_issued|]. split; [done|].
          intros c'. apply auto_id_fresh.
        - destruct (Hids _ Hin) as (Hni & Hi & Hnone). split.
          + intros Hx. apply Hni. cbn. by apply elem_of_union_r.
          + split; [done|]. exact Hnone. }
      unfold batch_set. by rewrite <- app_assoc.
    + exists (Throw e), (issue w). repeat split; try done.
      intros x Hx. cbn. by apply elem_of_union_r.
Qed.
End Batch.

Lemma apply_writes_lookup_other t c record : ∀ ids (ts : list Value) d k,
  k ∉ ((fun id => (c, id)) <$> ids) →
  apply_writes t (zip_with (fun id x => (c, id, record x)) ids ts) d !! k = d !! k.
Proof.
  induction ids as [|id ids IH]; intros ts d k Hk; [done|].
  destruct ts as [|x ts]; [done|]. cbn.
  change (foldl _ ?d0 ?b) with (apply_writes t b d0).
  rewrite fmap_cons, not_elem_of_cons in Hk. destruct Hk as [Hk1 Hk2].
  rewrite IH by done. by apply lookup_insert_ne.
Qed.

Lemma apply_writes_lookup t c record : ∀ ids (ts : list Value) d id,
  length ids = length ts → NoDup ids → id ∈ ids →
  ∃ x, x ∈ ts ∧
    apply_writes t (zip_with (fun id x => (c, id, record x)) ids ts) d !! (c, id)
      = Some (stored t (record x)).
Proof.
  induction ids as [|i ids IH]; intros ts d id Hlen Hnd Hin; [by apply elem_of_nil in Hin|].
  destruct ts as [|x ts]; [done|]. cbn.
  change (foldl _ ?d0 ?b) with (apply_writes t b d0).
  apply NoDup_cons in Hnd as [Hni Hnd]. apply elem_of_cons in Hin as [->|Hin].
  - exists x. split; [by left|].
    rewrite apply_writes_lookup_other; [apply lookup_insert_eq|].
    intros (j & [= <-] & Hj)%list_elem_of_fmap. done.
  - destruct (IH ts (<[(c, i) := stored t (record x)]> d) id) as (y & Hy & ->); auto.
    exists y. split; [by right|done].
Qed.

(** What [saveTransactions] does, by cases: the batch is committed, or
    nothing is written. *)
Lemma saveTransactions_cases (statementId : Value) (transactions : list Value) (w : World) :
  (∃ ids w',
     fault w = None ∧
     saveTransactions statementId transactions w
       = (Return (Success (length transactions)), w') ∧
     length ids = length transactions ∧ NoDup ids ∧
     (∀ id, id ∈ ids → db w !! (COLLECTIONS.TRANSACTIONS, id) = None) ∧
     (∀ id, id ∈ ids → ∃ doc,
        db w' !! (COLLECTIONS.TRANSACTIONS, id) = Some doc ∧
        doc !! "statementId" = Some (resolve (now w) statementId)) ∧
     (∀ k, k ∉ ((fun id => (COLLECTIONS.TRANSACTIONS, id)) <$> ids) →
        db w' !! k = db w !! k) ∧
     ∃ writes,
       log w' = log w ++ [BatchCommit writes] ∧
       length writes = length transactions ∧
       Forall (fun wr => snd wr !! "statementId" = Some statementId) writes) ∨
  (∃ error w',
     saveTransactions statementId transactions w = (Return (Failure error), w') ∧
     db w' = db w).
Proof.
  unfold saveTransactions.
  match goal with |- context [forEach transactions ?b writeBatch] => set (body := b) end.
  destruct (forEach_batch body COLLECTIONS.TRANSACTIONS (transaction_record statementId))
    with (ts := transactions) (batch := writeBatch) (w := w)
    as (o & w1 & Hrun & Hdb & Hnow & Hfa & Hlog & Hiss & Ho);
    [|unfold try_catch, bind; rewrite Hrun].
  { intros batch t w0. subst body. cbv beta. unfold bind at 1, newDocRef.
    destruct t; cbn [prop]; exec; try (right; by eauto); left; reflexivity. }
  destruct o as [batch|e]; [|right; eexists _, _; split; [reflexivity|done]].
  destruct Ho as (ids & Hlen & Hnd & Hids & ->). cbn [app writeBatch].
  unfold batch_commit, call, bind, ret, Firestore.report.
  assert (Hfault : fault w1 = fault w) by (unfold fault; by rewrite Hfa).
  rewrite Hfault.
  destruct (fault w) eqn:Hf; [right; eexists _, _; split; [reflexivity|done]|].
  left. exists ids. eexists. split; [done|]. split; [reflexivity|].
  split; [done|]. split; [done|].
  split; [intros id Hin; by apply Hids|].
  cbn -[transaction_record apply_writes]. rewrite Hdb, Hnow. split; [|split].
  - intros id Hin.
    destruct (apply_writes_lookup (now w) COLLECTIONS.TRANSACTIONS
                (transaction_record statementId) ids transactions (db w) id)
      as (x & _ & ->); auto.
    eexists. split; [reflexivity|]. unfold stored.
    by rewrite lookup_fmap, transaction_record_statementId.
  - intros k Hk. by apply apply_writes_lookup_other.
  - eexists. rewrite Hlog. split; [reflexivity|]. split.
    + rewrite length_zip_with. lia.
    + clear. revert transactions.
      induction ids; intros [|t ts]; cbn -[transaction_record]; constructor;
        auto using transaction_record_statementId.
Qed.

(** ** Batch delete *)

Lemma deleteFile_fires path w :
  ∃ reply w1,
    deleteFile path w = (Return reply, w1) ∧ log w1 = log w ++ [DeleteObject path].
Proof.
  unfold deleteFile, try_catch, bind, deleteObject, call, Storage.decline, ret.
  destruct (fault w) as [msg|]; [by eauto|].
  destruct (files (enter _ w) !! path); by eauto.
Qed.

Lemma allSettled_deleteFile paths : ∀ w,
  ∃ replies w',
    fired paths w replies w' ∧
    allSettled (map (fun path => deleteFile path) paths) w
      = (Return (map Fulfilled replies), w') ∧
    log w' = log w ++ map DeleteObject paths.
Proof.
  induction paths as [|path paths IH]; intros w.
  - exists [], w. split; [constructor|]. by rewrite app_nil_r.
  - destruct (deleteFile_fires path w) as (reply & w1 & Hd & Hl).
    destruct (IH w1) as (replies & w2 & Hf & Ha & Hl2).
    exists (reply :: replies), w2. split; [by econstructor|].
    simpl. rewrite Hd, Ha. split; [done|].
    rewrite Hl2, Hl, <- app_assoc. done.
Qed.

Lemma fired_length paths w replies w' :
  fired paths w replies w' → length replies = length paths.
Proof. induction 1; simpl; congruence. Qed.

Lemma tally_fulfilled (replies : list (Result unit)) :
  length (List.filter (fun result => match result with
                                     | Fulfilled value => is_success value
                                     | Rejected _ => false
                                     end) (map Fulfilled replies)) = successes replies
  ∧ length (List.filter (fun result => match result with
                                       | Rejected _ => true
                                       | Fulfilled value => negb (is_success value)
                                       end) (map Fulfilled replies)) = failures replies.
Proof.
  unfold successes, failures. induction replies as [|r rs [IH1 IH2]]; [done|].
  simpl. destruct (is_success r); simpl; auto.
Qed.

Lemma successes_failures {A} (replies : list (Result A)) :
  (successes replies + failures replies = length replies)%nat.
Proof.
  unfold successes, failures. induction replies as [|r rs IH]; [done|].
  simpl. destruct (is_success r); simpl; lia.
Qed.

(** ** Validation *)

Lemma validateFile_spec file :
  (spec_refused file → ∃ error, validateFile file = Invalid error ∧
     error ∈ ["No file selected"; "File size must be less than 10MB";
              "File type not supported. Please upload PDF, JPEG, PNG, or WebP files."]) ∧
  (¬ spec_refused file → validateFile file = Valid ∧ is_Some file).
Proof.
  destruct file as [f|]; simpl.
  - unfold maxSize. destruct (Z.ltb_spec (10 * 1024 * 1024) (file_size f)) as [Hlt|Hge].
    + split; [|tauto]. intros _. eexists. split; [done|]. set_solver.
    + unfold allowedTypes. case_bool_decide as Hin; simpl.
      * split; [intros [?|?]; [lia|done]|eauto].
      * split; [|tauto]. intros _. eexists. split; [done|]. set_solver.
  - split; [|tauto]. intros _. eexists. split; [done|]. set_solver.
Qed.

(** ** Replies instead of exceptions *)

Lemma report_total {A} e : total_reply (@Firestore.report A e).
Proof. intros w. by eexists _, _. Qed.

Lemma storage_report_total {A} e : total_reply (@Storage.decline A e).
Proof. intros w. by eexists _, _. Qed.

Lemma guarded_try_catch {A} (body : M (Result A)) (handler : Thrown → M (Result A)) :
  (∀ e w, ∃ error, handler e w = (Return (Failure error), w)) →
  fails_fast body → guarded (try_catch body handler).
Proof.
  intros Hh Hb. split.
  - apply try_catch_total. intros e w. destruct (Hh e w) as [error ->]. by eauto.
  - intros w msg Hf. destruct (Hb w msg Hf) as (e & w' & Hbody).
    unfold try_catch. rewrite Hbody. destruct (Hh e w') as [error ->]. by eauto.
Qed.

Lemma fails_fast_call {A} c (effect : M A) : fails_fast (call c effect).
Proof. intros w msg Hf. unfold call. rewrite Hf. by eauto. Qed.

Lemma fails_fast_bind {A B} (m : M A) (k : A → M B) : fails_fast m → fails_fast (bind m k).
Proof.
  intros Hm w msg Hf. destruct (Hm w msg Hf) as (e & w' & Hr).
  unfold bind. rewrite Hr. by eauto.
Qed.

Create HintDb shield.
#[local] Hint Resolve fails_fast_call fails_fast_bind : shield.

Ltac shielded :=
  apply guarded_try_catch; [intros; eexists; reflexivity|]; eauto 20 with shield.

(** An operation that hands over the reply of another one. *)
Lemma guarded_wrap {A} (inner : M (Result A)) (handler : Thrown → M (Result A)) :
  guarded inner → guarded (try_catch inner handler).
Proof.
  intros [Ht Hf]. split.
  - intros w. destruct (Ht w) as (a & w' & Hr). unfold try_catch. rewrite Hr. by eauto.
  - intros w msg Hm. destruct (Hf w msg Hm) as (error & w' & Hr).
    unfold try_catch. rewrite Hr. by eauto.
Qed.

(** An operation that reads its argument, which may throw, and then hands
    over the reply of another one. *)
Lemma guarded_after_props {A} (handler : Thrown → M (Result A)) :
  (∀ e w, ∃ error, handler e w = (Return (Failure error), w)) →
  ∀ (body : M (Result A)),
    (∀ w, (∃ e, body w = (Throw e, w)) ∨ ∃ inner, guarded inner ∧ body w = inner w) →
    guarded (try_catch body handler).
Proof.
  intros Hh body Hb. split.
  - apply try_catch_total. intros e w. destruct (Hh e w) as [error ->]. by eauto.
  - intros w msg Hf. unfold try_catch. destruct (Hb w) as [[e ->]|(inner & [_ Hi] & ->)].
    + destruct (Hh e w) as [error ->]. by eauto.
    + destruct (Hi w msg Hf) as (error & w' & ->). by eauto.
Qed.

Section Guarded.
Context `{Config}.

Lemma signIn_guarded em pw : guarded (signIn em pw).
Proof. unfold signIn, signInWithEmailAndPassword. shielded. Qed.

Lemma signUp_guarded em pw dn : guarded (signUp em pw dn).
Proof. unfold signUp, createUserWithEmailAndPassword. shielded. Qed.

Lemma signInWithGoogle_guarded : guarded signInWithGoogle.
Proof. unfold signInWithGoogle, signInWithPopup. shielded. Qed.

Lemma logOut_guarded : guarded logOut.
Proof. unfold logOut, signOut. shielded. Qed.

Lemma resetPassword_guarded em : guarded (resetPassword em).
Proof. unfold resetPassword, sendPasswordResetEmail. shielded. Qed.

Lemma signIn_keeps_db em pw w : db (snd (signIn em pw w)) = db w.
Proof.
  unfold signIn, signInWithEmailAndPassword, refuse. exec; try done.
  all: by destruct (String.eqb _ _).
Qed.

End Guarded.

Lemma getCurrentUserData_total u : total_reply (getCurrentUserData u).
Proof.
  unfold getCurrentUserData. destruct (negb (truthy u)); [intros w; by eexists _, _|].
  apply try_catch_total. intros e w. by eexists _, _.
Qed.

Lemma createDocument_guarded c data : guarded (createDocument c data).
Proof. unfold createDocument, addDoc. shielded. Qed.

Lemma updateDocument_guarded c id data : guarded (updateDocument c id data).
Proof. unfold updateDocument, updateDoc. shielded. Qed.

Lemma deleteDocument_guarded c id : guarded (deleteDocument c id).
Proof. unfold deleteDocument, deleteDoc. shielded. Qed.

Lemma getDocument_guarded c id : guarded (getDocument c id).
Proof. unfold getDocument, getDoc. shielded. Qed.

Lemma saveStatement_guarded userId statementData :
  guarded (saveStatement userId statementData).
Proof.
  unfold saveStatement. apply guarded_after_props; [intros; eexists; reflexivity|].
  intros w. destruct statementData; cbn [prop];
    try (left; eexists; reflexivity);
    right; eexists; (split; [apply createDocument_guarded|reflexivity]).
Qed.

Lemma logExport_guarded userId exportData : guarded (logExport userId exportData).
Proof.
  unfold logExport. apply guarded_after_props; [intros; eexists; reflexivity|].
  intros w. destruct exportData; cbn [prop];
    try (left; eexists; reflexivity);
    right; eexists; (split; [apply createDocument_guarded|reflexivity]).
Qed.

Lemma updateTransactionCategory_guarded id category subcategory :
  guarded (updateTransactionCategory id category subcategory).
Proof. unfold updateTransactionCategory. apply guarded_wrap, updateDocument_guarded. Qed.

Lemma getUserStatements_guarded userId limitCount :
  guarded (getUserStatements userId limitCount).
Proof. unfold getUserStatements, getDocs. shielded. Qed.

Lemma getTransactionsByStatement_guarded statementId :
  guarded (getTransactionsByStatement statementId).
Proof. unfold getTransactionsByStatement, getDocs. shielded. Qed.

Lemma getUserTransactions_guarded userId filters :
  guarded (getUserTransactions userId filters).
Proof.
  unfold getUserTransactions. split.
  - apply try_catch_total, report_total.
  - intros w msg Hf. unfold try_catch, bind.
    destruct (getUserStatements_guarded userId (VNum 100)) as [_ Hg].
    destruct (Hg w msg Hf) as (error & w' & ->). by eexists _, _.
Qed.

Lemma saveTransactions_guarded statementId transactions :
  guarded (saveTransactions statementId transactions).
Proof.
  split; [apply try_catch_total, report_total|].
  intros w msg Hf.
  destruct (saveTransactions_cases statementId transactions w)
    as [(ids & w' & Hnone & _)|(error & w' & Hrun & _)]; [congruence|by eauto].
Qed.

Lemma deleteFile_guarded path : guarded (deleteFile path).
Proof. unfold deleteFile, deleteObject. shielded. Qed.

Lemma getFileURL_guarded path : guarded (getFileURL path).
Proof. unfold getFileURL, getDownloadURL. shielded. Qed.

Lemma getFileMetadata_guarded path : guarded (getFileMetadata path).
Proof. unfold getFileMetadata, getMetadata. shielded. Qed.

Lemma deleteFiles_total paths : total_reply (deleteFiles paths).
Proof. apply try_catch_total, storage_report_total. Qed.

Lemma uploadFile_plain_guarded file path : guarded (uploadFile file path None).
Proof.
  split.
  - intros w. unfold uploadFile, uploadBytes, getDownloadURL, getMetadata.
    destruct (validateFile file); [destruct file|]; exec; by eexists _, _.
  - intros w msg Hf. unfold uploadFile, uploadBytes.
    destruct (validateFile file); [destruct file|];
      unfold bind, try_catch, call, ret, throw; rewrite ?Hf; by eexists _, _.
Qed.

(** * The claims *)

Import Examples.

(** ** C1: the transactions of a user *)




(** ** C2: the user document at sign-in *)

(** C2, as the code has it.  Signing in with email and password never
    writes a document.  Signing in with Google, when the user has no
    document yet and the platform calls succeed, creates the document
    [users/uid] with the default settings, profile and subscription; so does
    signing up with email and password. *)
Theorem sign_in_profile `{Config} :
  (∀ em pw w, db (snd (signIn em pw w)) = db w) ∧
  (∀ w u,
     google_account w = Some u → calm w → db w !! ("users", uid u) = None →
     ∃ reply w' doc,
       signInWithGoogle w = (Return (Success reply), w') ∧
       db w' = <[("users", uid u) := doc]> (db w) ∧
       doc !! "settings" = Some (VObj spec_default_settings) ∧
       doc !! "profile" = Some (VObj spec_default_profile) ∧
       doc !! "subscription" = Some (VObj (spec_default_subscription (now w)))) ∧
  (∀ em pw dn w,
     accounts w !! em = None → calm w → db w !! ("users", "uid:" +:+ em) = None →
     ∃ reply w' doc,
       signUp em pw dn w = (Return (Success reply), w') ∧
       db w' = <[("users", "uid:" +:+ em) := doc]> (db w) ∧
       doc !! "settings" = Some (VObj spec_default_settings) ∧
       doc !! "profile" = Some (VObj spec_default_profile) ∧
       doc !! "subscription" = Some (VObj (spec_default_subscription (now w)))).
Proof.
  split; [apply signIn_keeps_db|]. split.
  - intros w u Hg Hc Hnone.
    unfold signInWithGoogle, signInWithPopup, createUserDocument, getDoc, setDoc.
    unfold try_catch, bind, ret. calmly. cbn [google_account enter with_faults with_log].
    rewrite Hg. calmly.
    cbn [or_default fst snd db with_current_user enter with_faults with_log].
    rewrite Hnone. cbn [negb ds_exists ds_data own_props].
    destruct (truthy (displayName u)); cbn [prop]; unfold ret; cbn beta iota; calmly.
    all: eexists _, _, _; (split; [reflexivity|]); (split; [reflexivity|]).
    all: unfold stored, spread; rewrite !lookup_fmap, !lookup_union, !lookup_empty.
    all: unfold obj; cbn [foldl fst snd]; unfold put.
    all: repeat split.
    all: rewrite ?lookup_insert_ne by done; rewrite lookup_insert_eq.
    all: cbn [union option_union union_with option_union_with fmap option_fmap option_map].
    all: f_equal; vm_compute; reflexivity.
  - intros em pw dn w Ha Hc Hnone.
    unfold signUp, createUserWithEmailAndPassword, updateProfile, createUserDocument,
      getDoc, setDoc.
    unfold try_catch, bind, ret. calmly. cbn [accounts enter with_faults with_log].
    rewrite Ha.
    destruct (truthy (or_default dn (VStr ""))) eqn:Hdn; cbn beta iota; repeat calmly.
    all: cbn [or_default fst snd db with_current_user with_accounts enter with_faults
              with_log uid rename].
    all: rewrite Hnone; cbn [negb ds_exists ds_data own_props displayName rename truthy].
    all: rewrite ?Hdn; cbn [prop]; unfold ret; cbn beta iota; calmly.
    all: eexists _, _, _; (split; [reflexivity|]); (split; [reflexivity|]).
    all: unfold stored, spread; rewrite !lookup_fmap, !lookup_union.
    all: unfold obj; cbn [foldl fst snd]; unfold put.
    all: repeat split.
    all: rewrite ?lookup_insert_ne by done; rewrite ?lookup_empty; rewrite lookup_insert_eq.
    all: cbn [union option_union union_with option_union_with fmap option_fmap option_map].
    all: f_equal; vm_compute; reflexivity.
Qed.

Lemma sign_in_profile_witness :
  google_account google_world = Some ann_google ∧
  calm google_world ∧
  db google_world !! ("users", uid ann_google) = None ∧
  (∃ reply w' doc,
     @signInWithGoogle plain google_world = (Return (Success reply), w') ∧
     db w' = <[("users", uid ann_google) := doc]> (db google_world) ∧
     doc !! "settings" = Some (VObj spec_default_settings) ∧
     doc !! "profile" = Some (VObj spec_default_profile) ∧
     doc !! "subscription" = Some (VObj (spec_default_subscription (now google_world)))) ∧
  accounts empty_world !! "ann@example.com" = None ∧
  calm empty_world ∧
  db empty_world !! ("users", "uid:" +:+ "ann@example.com") = None ∧
  (∃ reply w' doc,
     @signUp plain "ann@example.com" "secret" (VStr "Ann") empty_world
       = (Return (Success reply), w') ∧
     db w' = <[("users", "uid:" +:+ "ann@example.com") := doc]> (db empty_world) ∧
     doc !! "settings" = Some (VObj spec_default_settings) ∧
     doc !! "profile" = Some (VObj spec_default_profile) ∧
     doc !! "subscription" = Some (VObj (spec_default_subscription (now empty_world)))).
Proof.
  assert (H1 : google_account google_world = Some ann_google) by reflexivity.
  assert (H2 : calm google_world) by constructor.
  assert (H3 : db google_world !! ("users", uid ann_google) = None) by reflexivity.
  assert (H4 : accounts empty_world !! "ann@example.com" = None) by reflexivity.
  assert (H5 : calm empty_world) by constructor.
  assert (H6 : db empty_world !! ("users", "uid:" +:+ "ann@example.com") = None)
    by reflexivity.
  split; [exact H1|]. split; [exact H2|]. split; [exact H3|]. split.
  - exact (proj1 (proj2 (@sign_in_profile plain)) google_world ann_google H1 H2 H3).
  - split; [exact H4|]. split; [exact H5|]. split; [exact H6|].
    exact (proj2 (proj2 (@sign_in_profile plain)) "ann@example.com" "secret" (VStr "Ann")
             empty_world H4 H5 H6).
Defined.

(** C2 fails as stated: Ann signs up while the write of her user document
    fails, which [createUserDocument] swallows; she then signs in with her
    email and password for the first time, with success, and still no
    document exists for her. *)
Lemma signIn_leaves_no_profile :
  (∃ reply, fst (@signUp plain "ann@example.com" "secret" (VStr "Ann") outage_world)
            = Return (Success reply)) ∧
  db ann_world !! ("users", "uid:ann@example.com") = None ∧
  (∃ reply, fst (@signIn plain "ann@example.com" "secret" ann_world)
            = Return (Success reply)) ∧
  db (snd (@signIn plain "ann@example.com" "secret" ann_world))
    !! ("users", "uid:ann@example.com") = None.
Proof.
  split; [eexists; reflexivity|].
  split; [reflexivity|].
  split; [eexists; reflexivity|].
  reflexivity.
Qed.

(** ** C3: the batched delete *)

(** C3.  For every list of paths, [deleteFiles] runs one [deleteFile] per
    path, each of which issues one [deleteObject] call, in the order of the
    paths; it replies with a tally whose [total] is the number of paths,
    whose [successful] counts the deletions that replied with success and
    whose [failed] counts the others, so that
    [successful + failed = total]. *)
Theorem deleteFiles_tally (filePaths : list string) (w : World) :
  ∃ replies w',
    fired filePaths w replies w' ∧
    log w' = log w ++ map DeleteObject filePaths ∧
    deleteFiles filePaths w =
      (Return (Success (mkTally (successes replies) (failures replies) (length filePaths))),
       w') ∧
    (successes replies + failures replies = length filePaths)%nat.
Proof.
  destruct (allSettled_deleteFile filePaths w) as (replies & w' & Hf & Ha & Hl).
  exists replies, w'. split; [done|]. split; [done|]. split.
  - unfold deleteFiles, try_catch, bind. rewrite Ha. unfold ret.
    destruct (tally_fulfilled replies) as [-> ->]. done.
  - rewrite successes_failures. by eapply fired_length.
Qed.

(** ** C4: validation before upload *)

(** C4.  If the file is absent, larger than 10 MB, or of a content type
    outside the five allowed ones, [uploadFile] replies
    [{ success: false, error }] with one of the three messages of
    [validateFile] and leaves the world as it was: no platform call is
    made.  Otherwise the validation passes and the transfer is started: the
    first platform call issued is the upload of the file to the path. *)
Theorem uploadFile_validates (file : option File) (path : string)
    (onProgress : option Callback) (w : World) :
  (spec_refused file →
     ∃ error,
       error ∈ ["No file selected"; "File size must be less than 10MB";
                "File type not supported. Please upload PDF, JPEG, PNG, or WebP files."] ∧
       uploadFile file path onProgress w = (Return (Failure (VStr error)), w)) ∧
  (¬ spec_refused file →
     ∃ f rest,
       file = Some f ∧ validateFile file = Valid ∧
       log (snd (uploadFile file path onProgress w)) =
         log w ++ upload_call onProgress path f :: rest).
Proof.
  destruct (validateFile_spec file) as [Hbad Hok]. split.
  - intros Hr. destruct (Hbad Hr) as (error & Hv & Hin). exists error. split; [done|].
    unfold uploadFile, bind, try_catch. rewrite Hv. by destruct file.
  - intros Hr. destruct (Hok Hr) as [Hv [f ->]].
    exists f. unfold uploadFile.
    destruct onProgress as [cb|]; cbn [upload_call].
    + unfold run_upload, invoke, getDownloadURL, getMetadata. rewrite Hv.
      exec; eexists; (split; [reflexivity|]); (split; [reflexivity|]);
        cbn; rewrite <- ?app_assoc; reflexivity.
    + unfold uploadBytes, getDownloadURL, getMetadata. rewrite Hv.
      exec; eexists; (split; [reflexivity|]); (split; [reflexivity|]);
        cbn; rewrite <- ?app_assoc; reflexivity.
Qed.

Lemma uploadFile_validates_witness :
  spec_refused (Some (mkFile "scan.gif" 4096 "image/gif")) ∧
  (∃ error,
     error ∈ ["No file selected"; "File size must be less than 10MB";
              "File type not supported. Please upload PDF, JPEG, PNG, or WebP files."] ∧
     uploadFile (Some (mkFile "scan.gif" 4096 "image/gif")) "statements/u/scan.gif" None
       empty_world = (Return (Failure (VStr error)), empty_world)) ∧
  ¬ spec_refused (Some pdf) ∧
  (∃ f rest,
     Some pdf = Some f ∧ validateFile (Some pdf) = Valid ∧
     log (snd (uploadFile (Some pdf) "statements/u/january.pdf" (Some ProgressCallback)
                 empty_world)) =
       log empty_world
         ++ upload_call (Some ProgressCallback) "statements/u/january.pdf" f :: rest).
Proof.
  assert (H1 : spec_refused (Some (mkFile "scan.gif" 4096 "image/gif"))).
  { right. cbn. intros Hin. by repeat (apply elem_of_cons in Hin as [Hin|Hin]; [done|]);
      apply elem_of_nil in Hin. }
  assert (H2 : ¬ spec_refused (Some pdf)).
  { intros [Hbig|Htype]; [by vm_compute in Hbig|]. apply Htype. cbn. by left. }
  split; [exact H1|]. split.
  - exact (proj1 (uploadFile_validates (Some (mkFile "scan.gif" 4096 "image/gif"))
                    "statements/u/scan.gif" None empty_world) H1).
  - split; [exact H2|].
    exact (proj2 (uploadFile_validates (Some pdf) "statements/u/january.pdf"
                    (Some ProgressCallback) empty_world) H2).
Defined.

(** ** C5: saving the transactions of a statement *)


(** ** C6: reading a document *)




(** ** C7: the queries *)



(** ** C8: the status of a saved statement *)


(** ** C9: the user document is created once *)

(** C9.  If a document exists for the uid of the user, [createUserDocument]
    leaves the store as it is, whatever the additional data; so when a
    first call has left a document there, a second call changes nothing. *)
Theorem createUserDocument_idempotent (u : User) (additionalData again : Value)
    (w : World) :
  let w1 := snd (createUserDocument (Some u) additionalData w) in
  (is_Some (db w !! ("users", uid u)) → db w1 = db w) ∧
  (is_Some (db w1 !! ("users", uid u)) →
     db (snd (createUserDocument (Some u) again w1)) = db w1).
Proof.
  assert (Hkeep : ∀ a w0, is_Some (db w0 !! ("users", uid u)) →
            db (snd (createUserDocument (Some u) a w0)) = db w0).
  { intros a w0 [doc Hdoc]. unfold createUserDocument, getDoc, bind, call. cbn [fst snd].
    destruct (fault w0); [done|]. unfold ds_exists. cbn. by rewrite Hdoc. }
  split; apply Hkeep.
Qed.

Lemma createUserDocument_idempotent_witness :
  is_Some (db returning_world !! ("users", uid ann_google)) ∧
  db (snd (createUserDocument (Some ann_google)
             (VObj {[ "displayName" := VStr "Someone else" ]}) returning_world))
    = db returning_world ∧
  is_Some (db (snd (createUserDocument (Some ann_google) VUndefined google_world))
             !! ("users", uid ann_google)) ∧
  db (snd (createUserDocument (Some ann_google) (VObj {[ "theme" := VStr "dark" ]})
             (snd (createUserDocument (Some ann_google) VUndefined google_world))))
    = db (snd (createUserDocument (Some ann_google) VUndefined google_world)).
Proof.
  assert (H1 : is_Some (db returning_world !! ("users", uid ann_google)))
    by (eexists; reflexivity).
  assert (H2 : is_Some (db (snd (createUserDocument (Some ann_google) VUndefined
                                   google_world)) !! ("users", uid ann_google)))
    by (eexists; reflexivity).
  split; [exact H1|]. split.
  - exact (proj1 (createUserDocument_idempotent ann_google
                    (VObj {[ "displayName" := VStr "Someone else" ]}) VUndefined
                    returning_world) H1).
  - split; [exact H2|].
    exact (proj2 (createUserDocument_idempotent ann_google VUndefined
                    (VObj {[ "theme" := VStr "dark" ]}) google_world) H2).
Defined.

(** ** C10: replies instead of exceptions *)

(** C10, as the code has it.  The operations that reply with a
    [{ success, ... }] object, [uploadFile] being taken without a progress
    callback, always end in a reply and never throw or reject, whatever the
    platform calls do; and when the next platform call fails, the reply of
    each of them but the batch delete, which tallies failures, is
    [{ success: false, error }].  [getCurrentUserData] always ends in the
    data or [null]. *)
Theorem replies_never_throw `{Config} :
  (∀ em pw dn, guarded (signUp em pw dn)) ∧
  (∀ em pw, guarded (signIn em pw)) ∧
  guarded signInWithGoogle ∧
  guarded logOut ∧
  (∀ em, guarded (resetPassword em)) ∧
  (∀ u, total_reply (getCurrentUserData u)) ∧
  (∀ c data, guarded (createDocument c data)) ∧
  (∀ c id data, guarded (updateDocument c id data)) ∧
  (∀ c id, guarded (deleteDocument c id)) ∧
  (∀ c id, guarded (getDocument c id)) ∧
  (∀ userId statementData, guarded (saveStatement userId statementData)) ∧
  (∀ userId limitCount, guarded (getUserStatements userId limitCount)) ∧
  (∀ statementId transactions, guarded (saveTransactions statementId transactions)) ∧
  (∀ statementId, guarded (getTransactionsByStatement statementId)) ∧
  (∀ userId filters, guarded (getUserTransactions userId filters)) ∧
  (∀ id category subcategory, guarded (updateTransactionCategory id category subcategory)) ∧
  (∀ userId exportData, guarded (logExport userId exportData)) ∧
  (∀ file path, guarded (uploadFile file path None)) ∧
  (∀ path, guarded (deleteFile path)) ∧
  (∀ path, guarded (getFileURL path)) ∧
  (∀ path, guarded (getFileMetadata path)) ∧
  (∀ paths, total_reply (deleteFiles paths)).
Proof.
  repeat match goal with |- _ ∧ _ => split end; intros;
    auto using signUp_guarded, signIn_guarded, signInWithGoogle_guarded, logOut_guarded,
      resetPassword_guarded, getCurrentUserData_total, createDocument_guarded,
      updateDocument_guarded, deleteDocument_guarded, getDocument_guarded,
      saveStatement_guarded, getUserStatements_guarded, saveTransactions_guarded,
      getTransactionsByStatement_guarded, getUserTransactions_guarded,
      updateTransactionCategory_guarded, logExport_guarded, uploadFile_plain_guarded,
      deleteFile_guarded, getFileURL_guarded, getFileMetadata_guarded, deleteFiles_total.
Qed.

(** C10 fails as stated: with a progress callback, an upload whose transfer
    fails makes [uploadFile] reject, with the object
    [{ success: false, error }] as the reason; and [createUserDocument]
    rejects when its read of the user document fails. *)
Lemma upload_with_progress_rejects :
  validateFile (Some pdf) = Valid ∧
  fst (uploadFile (Some pdf) "statements/u/january.pdf" (Some ProgressCallback)
         failing_world)
    = Throw (PlainObj {[ "success" := VBool false; "error" := VStr "storage/canceled" ]}) ∧
  fst (createUserDocument (Some ann_google) VUndefined offline_world)
    = Throw (ErrorObj "unavailable").
Proof. repeat split; reflexivity. Qed.

(** * Further properties of the code *)

(** ** Documents: create, read, update, delete *)

Lemma spread_lookup (base extra : Obj) k :
  spread base extra !! k = match extra !! k with Some v => Some v | None => base !! k end.
Proof. unfold spread. rewrite lookup_union. by destruct (extra !! k), (base !! k). Qed.

Lemma getDocument_value c id w :
  fault w = None →
  getDocument c id w =
    (Return (match db w !! (c, id) with
             | Some fields => Success (with_id id fields)
             | None => Failure (VStr "Document not found")
             end), enter (GetDoc c id) w).
Proof.
  intros Hf. unfold getDocument, getDoc, try_catch, bind, call. rewrite Hf. cbn.
  by destruct (db w !! (c, id)).
Qed.

Lemma createDocument_inv c data w id w1 :
  createDocument c data w = (Return (Success id), w1) →
  db w !! (c, id) = None ∧
  db w1 = <[(c, id) := stored (now w)
              (put "updatedAt" serverTimestamp (put "createdAt" serverTimestamp data))]> (db w).
Proof.
  intros Hrun.
  destruct (createDocument_cases c data w)
    as [(id' & w' & Heq & Hnone & Hdb)|(error & w' & Heq & _)]; rewrite Heq in Hrun.
  - by injection Hrun as -> ->.
  - discriminate.
Qed.

(** X1.  A document created with [createDocument] and read back with
    [getDocument] under the id of the reply: [createdAt] and [updatedAt]
    are the time of the write, whatever [data] held under these names;
    every other field but [id] is the field of [data] as the server stores
    it; [id] is the id of the reply unless [data] has a field [id]. *)
Theorem createDocument_then_getDocument (collectionName : string) (data : Obj)
    (w w1 : World) (id : string) :
  createDocument collectionName data w = (Return (Success id), w1) →
  fault w1 = None →
  ∃ read w2,
    getDocument collectionName id w1 = (Return (Success read), w2) ∧
    read !! "createdAt" = Some (VTime (now w)) ∧
    read !! "updatedAt" = Some (VTime (now w)) ∧
    (∀ k, k ∉ ["id"; "createdAt"; "updatedAt"] → read !! k = resolve (now w) <$> data !! k) ∧
    (data !! "id" = None → read !! "id" = Some (VStr id)).
Proof.
  intros Hrun Hf. apply createDocument_inv in Hrun as [Hnone Hdb].
  rewrite (getDocument_value _ _ _ Hf), Hdb, lookup_insert_eq.
  eexists _, _. split; [reflexivity|]. unfold stored, put.
  split; [|split; [|split]].
  - rewrite with_id_lookup_ne by done.
    by rewrite lookup_fmap, lookup_insert_ne, lookup_insert_eq by done.
  - rewrite with_id_lookup_ne by done. by rewrite lookup_fmap, lookup_insert_eq.
  - intros k Hk. rewrite !not_elem_of_cons in Hk. destruct Hk as (H1 & H2 & H3 & _).
    rewrite with_id_lookup_ne by done. by rewrite lookup_fmap, !lookup_insert_ne by done.
  - intros Hid. rewrite with_id_lookup_id.
    by rewrite lookup_fmap, !lookup_insert_ne, Hid by done.
Qed.

Lemma createDocument_then_getDocument_witness :
  createDocument "statements" {[ "fileName" := VStr "january.pdf" ]} empty_world
    = (Return (Success "0"), filed_world) ∧
  fault filed_world = None ∧
  ∃ read w2,
    getDocument "statements" "0" filed_world = (Return (Success read), w2) ∧
    read !! "createdAt" = Some (VTime (now empty_world)) ∧
    read !! "updatedAt" = Some (VTime (now empty_world)) ∧
    (∀ k, k ∉ ["id"; "createdAt"; "updatedAt"] →
       read !! k = resolve (now empty_world)
                     <$> ({[ "fileName" := VStr "january.pdf" ]} : Obj) !! k) ∧
    (({[ "fileName" := VStr "january.pdf" ]} : Obj) !! "id" = None →
       read !! "id" = Some (VStr "0")).
Proof.
  assert (H1 : createDocument "statements" {[ "fileName" := VStr "january.pdf" ]}
                 empty_world = (Return (Success "0"), filed_world)) by reflexivity.
  assert (H2 : fault filed_world = None) by reflexivity.
  split; [exact H1|]. split; [exact H2|].
  exact (createDocument_then_getDocument "statements" _ empty_world filed_world "0" H1 H2).
Defined.









(** ** Saving transactions *)

Section Entries.
Context (body : WriteBatch → Value → M WriteBatch) (c : string) (record : Value → Obj).
Hypothesis body_entries : ∀ batch t w,
  (¬ nullish t ∧
     body batch t w = (Return (batch_set batch c (auto_id w) (record t)), issue w)) ∨
  (nullish t ∧ ∃ e, body batch t w = (Throw e, issue w)).

Lemma body_entries_spec : ∀ batch t w,
  body batch t w = (Return (batch_set batch c (auto_id w) (record t)), issue w) ∨
  ∃ e, body batch t w = (Throw e, issue w).
Proof. intros batch t w. destruct (body_entries batch t w) as [[_ ?]|[_ ?]]; auto. Qed.

Lemma forEach_entries ts : ∀ batch w batch' w',
  forEach ts body batch w = (Return batch', w') → Forall (fun t => ¬ nullish t) ts.
Proof.
  induction ts as [|t ts IH]; intros batch w batch' w'; [constructor|].
  cbn [forEach]. unfold bind at 1.
  destruct (body_entries batch t w) as [[Hok ->]|[_ [e ->]]]; [|discriminate].
  intros Hrun. constructor; [done|]. by eapply IH.
Qed.
End Entries.

Lemma transaction_body_entries statementId : ∀ batch t w,
  let body := (fun (batch : WriteBatch) transaction =>
       transactionRef <- newDocRef ;;
       date <- prop transaction "date" ;;
       description <- prop transaction "description" ;;
       amount <- prop transaction "amount" ;;
       type <- prop transaction "type" ;;
       category <- prop transaction "category" ;;
       subcategory <- prop transaction "subcategory" ;;
       balance <- prop transaction "balance" ;;
       reference <- prop transaction "reference" ;;
       isRecurring <- prop transaction "isRecurring" ;;
       tags <- prop transaction "tags" ;;
       ret (batch_set batch COLLECTIONS.TRANSACTIONS transactionRef (obj [
         ("statementId", statementId);
         ("date", date);
         ("description", description);
         ("amount", amount);
         ("type", type);
         ("category", category);
         ("subcategory", subcategory);
         ("balance", balance);
         ("reference", reference);
         ("isRecurring", js_or isRecurring (VBool false));
         ("tags", js_or tags (VArr []));
         ("createdAt", serverTimestamp);
         ("updatedAt", serverTimestamp) ]))) in
  (¬ nullish t ∧
     body batch t w = (Return (batch_set batch COLLECTIONS.TRANSACTIONS (auto_id w)
                                 (transaction_record statementId t)), issue w)) ∨
  (nullish t ∧ ∃ e, body batch t w = (Throw e, issue w)).
Proof.
  intros batch t w body. subst body. cbv beta. unfold bind at 1, newDocRef.
  destruct t; cbn [prop]; exec;
    try (right; split; [by (left + right)|by eauto]);
    left; (split; [intros [?|?]; discriminate|reflexivity]).
Qed.

(** What a successful [saveTransactions] has done. *)
Lemma saveTransactions_inv statementId transactions w n w' :
  saveTransactions statementId transactions w = (Return (Success n), w') →
  ∃ ids,
    n = length transactions ∧
    Forall (fun t => ¬ nullish t) transactions ∧
    length ids = length transactions ∧ NoDup ids ∧
    (∀ id, id ∈ ids → ∀ c, db w !! (c, id) = None) ∧
    log w' = log w ++ [BatchCommit
      (zip_with (fun id t => (COLLECTIONS.TRANSACTIONS, id,
                              transaction_record statementId t)) ids transactions)] ∧
    db w' = apply_writes (now w)
      (zip_with (fun id t => (COLLECTIONS.TRANSACTIONS, id,
                              transaction_record statementId t)) ids transactions) (db w).
Proof.
  unfold saveTransactions.
  match goal with |- context [forEach transactions ?b writeBatch] => set (body := b) end.
  pose proof (transaction_body_entries statementId) as Hbody. cbv zeta in Hbody. fold body in Hbody.
  destruct (forEach_batch body COLLECTIONS.TRANSACTIONS (transaction_record statementId)
              (body_entries_spec _ _ _ Hbody) transactions writeBatch w)
    as (o & w1 & Hrun & Hdb & Hnow & Hfa & Hlog & Hiss & Ho).
  unfold try_catch, bind. rewrite Hrun.
  destruct o as [batch|e]; [|intros; discriminate].
  pose proof (forEach_entries _ _ _ Hbody _ _ _ _ _ Hrun) as Hgood.
  destruct Ho as (ids & Hlen & Hnd & Hids & ->). cbn [app writeBatch].
  unfold batch_commit, call, ret, Firestore.report.
  destruct (fault w1); [intros; discriminate|].
  intros Heq. injection Heq as <- <-. exists ids.
  split; [done|]. split; [done|]. split; [done|]. split; [done|].
  split; [intros id Hin; by apply Hids|].
  cbn -[transaction_record apply_writes]. by rewrite Hlog, Hdb, Hnow.
Qed.

(** X6.  When one of the transactions is [null] or [undefined],
    [saveTransactions] replies [{ success: false, error }]: reading its
    [date] throws inside [forEach], so the batch is never committed; no
    platform call is issued and no document is written, also for the
    transactions before the bad one. *)
Theorem saveTransactions_null_entry (statementId : Value) (transactions : list Value)
    (w : World) :
  (∃ t, t ∈ transactions ∧ nullish t) →
  ∃ error w',
    saveTransactions statementId transactions w = (Return (Failure error), w') ∧
    db w' = db w ∧ log w' = log w.
Proof.
  intros (t & Hin & Hnull).
  destruct (saveTransactions statementId transactions w) as [[[n|error]|e] w'] eqn:Hrun.
  - apply saveTransactions_inv in Hrun as (ids & _ & Hgood & _).
    rewrite Forall_forall in Hgood. by destruct (Hgood t Hin).
  - exists error, w'. split; [done|].
    revert Hrun. unfold saveTransactions.
    match goal with |- context [forEach transactions ?b writeBatch] => set (body := b) end.
    pose proof (transaction_body_entries statementId) as Hbody. cbv zeta in Hbody.
    fold body in Hbody.
    destruct (forEach_batch body COLLECTIONS.TRANSACTIONS (transaction_record statementId)
                (body_entries_spec _ _ _ Hbody) transactions writeBatch w)
      as (o & w1 & Hfe & Hdb & Hnow & Hfa & Hlog & Hiss & Ho).
    unfold try_catch, bind. rewrite Hfe. destruct o as [batch|e].
    + intros _. exfalso. apply (forEach_entries _ _ _ Hbody) in Hfe.
      rewrite Forall_forall in Hfe. by destruct (Hfe t Hin).
    + unfold Firestore.report, ret. intros Heq. injection Heq as _ <-. done.
  - exfalso. destruct (proj1 (saveTransactions_guarded statementId transactions) w)
      as (a & w2 & Heq). congruence.
Qed.

Lemma saveTransactions_null_entry_witness :
  (∃ t, t ∈ [groceries; VNull] ∧ nullish t) ∧
  ∃ error w',
    saveTransactions (VStr "s1") [groceries; VNull] empty_world
      = (Return (Failure error), w') ∧
    db w' = db empty_world ∧ log w' = log empty_world.
Proof.
  assert (H1 : ∃ t, t ∈ [groceries; VNull] ∧ nullish t).
  { exists VNull. split; [apply list_elem_of_further, list_elem_of_here|by left]. }
  split; [exact H1|].
  exact (saveTransactions_null_entry (VStr "s1") [groceries; VNull] empty_world H1).
Defined.







(** ** The transactions of a user *)




Lemma length_apply_limit_last ks n (l : list Snapshot) :
  (length (apply_limit (ks ++ [Limit (VNum n)]) l) ≤ Z.to_nat n)%nat.
Proof.
  revert l. induction ks as [|k ks IH]; intros l.
  - cbn. rewrite length_take. lia.
  - destruct k as [| | |[]]; cbn; apply IH.
Qed.

(** X10.  The filters of [getUserTransactions]: with a truthy [filters.category]
    every transaction of a successful reply has that category; with a
    non-zero number as [filters.limit] the reply holds at most that many
    transactions. *)
Theorem getUserTransactions_filters (userId filters : Value) (w w' : World)
    (data : list Obj) :
  getUserTransactions userId filters w = (Return (Success data), w') →
  (truthy (peek (or_default filters (VObj ∅)) "category") = true →
     ∀ t, t ∈ data → t !! "category" = Some (peek (or_default filters (VObj ∅)) "category")) ∧
  (∀ n, peek (or_default filters (VObj ∅)) "limit" = VNum n → n ≠ 0 →
     (length data ≤ Z.to_nat n)%nat).
Proof.
  unfold getUserTransactions, try_catch at 1, bind at 1.
  destruct (getUserStatements userId (VNum 100) w) as [[[statements|e]|e] w1];
    try (intros; discriminate).
  destruct (Nat.eqb _ 0).
  { intros Heq. injection Heq as <- _. split; [by intros _ t ?%elem_of_nil|].
    intros n _ _. cbn. lia. }
  set (q0 := mkQuery _ _).
  assert (Hq : ∀ q data0 w2,
            (querySnapshot <- getDocs q ;;
             ret (Success (map (fun doc => with_id (snap_id doc) (snap_data doc))
                               querySnapshot))) w1 = (Return (Success data0), w2) →
            data0 = map (fun doc => with_id (snap_id doc) (snap_data doc))
                        (run_query q (db w1))).
  { intros q data0 w2. unfold bind, getDocs, call, ret.
    destruct (fault w1); [intros; discriminate|].
    destruct (forallb _ _); [|intros; discriminate].
    intros Heq. by injection Heq as <- _. }
  destruct (or_default filters (VObj ∅)) as [| | | | | | | |o];
    repeat first [ rewrite bind_ret_l | rewrite bind_throw
                 | progress cbn [prop peek] | progress cbv beta zeta ];
    try (intros; discriminate).
  all: try change (truthy VUndefined) with false; cbv iota.
  all: try (destruct (truthy (field o "category")) eqn:Hcat;
            destruct (truthy (field o "limit")) eqn:Hlim).
  all: match goal with
       | |- context [(querySnapshot <- getDocs ?q ;; _) ?w0] =>
           pose proof (Hq q) as Hq';
           destruct ((querySnapshot <- getDocs q ;;
                      ret (Success (map (fun doc => with_id (snap_id doc) (snap_data doc))
                                        querySnapshot))) w0) as [[[d|]|] w2];
           try (intros; discriminate);
           intros Heq; injection Heq as -> ->; specialize (Hq' _ _ eq_refl); subst data
       end.
  all: split.
  all: try (intros ?; discriminate).
  all: try (intros n Hn; discriminate Hn).
  all: try (intros n Hn Hn0; rewrite Hn in Hlim; cbn in Hlim;
            apply negb_false_iff, Z.eqb_eq in Hlim; contradiction).
  all: try (intros _ t Ht; apply list_elem_of_fmap in Ht as (s & -> & Hs);
            apply elem_of_run_query in Hs as [_ Hm];
            match type of Hm with context [WhereEq "category" ?v] =>
              specialize (Hm (WhereEq "category" v) ltac:(cbn; set_solver)) end;
            cbn in Hm; rewrite bool_decide_eq_true in Hm;
            by apply with_id_lookup_field).
  all: try (intros n Hn _; rewrite length_map, Hn;
            match goal with |- context [run_query (query ?q (Limit _)) _] =>
              unfold run_query, query; cbn [q_constraints q_collection];
              apply length_apply_limit_last end).
Qed.

Lemma getUserTransactions_filters_witness :
  getUserTransactions (VStr "u") food_only ledger_world
    = (Return (Success [with_id "t1"
                          (<["category" := VStr "food"]>
                             (transaction_of "s1" "2024-01-05" 120))]),
       snd (getUserTransactions (VStr "u") food_only ledger_world)) ∧
  truthy (peek (or_default food_only (VObj ∅)) "category") = true ∧
  peek (or_default food_only (VObj ∅)) "limit" = VNum 5 ∧
  (∀ t, t ∈ [with_id "t1" (<["category" := VStr "food"]>
                             (transaction_of "s1" "2024-01-05" 120))] →
     t !! "category" = Some (peek (or_default food_only (VObj ∅)) "category")) ∧
  (length [with_id "t1" (<["category" := VStr "food"]>
                           (transaction_of "s1" "2024-01-05" 120))] ≤ Z.to_nat 5)%nat.
Proof.
  assert (H1 : getUserTransactions (VStr "u") food_only ledger_world
               = (Return (Success [with_id "t1"
                                     (<["category" := VStr "food"]>
                                        (transaction_of "s1" "2024-01-05" 120))]),
                  snd (getUserTransactions (VStr "u") food_only ledger_world)))
    by reflexivity.
  assert (H2 : truthy (peek (or_default food_only (VObj ∅)) "category") = true)
    by reflexivity.
  assert (H3 : peek (or_default food_only (VObj ∅)) "limit" = VNum 5) by reflexivity.
  split; [exact H1|]. split; [exact H2|]. split; [exact H3|].
  pose proof (getUserTransactions_filters (VStr "u") food_only ledger_world _ _ H1)
    as [Hcat Hlim].
  split; [exact (Hcat H2)|]. apply (Hlim 5 H3). discriminate.
Defined.

(** ** Identity *)

(** X11.  When the call to the identity provider fails, each of [signUp],
    [signIn], [signInWithGoogle], [logOut] and [resetPassword] replies
    [{ success: false, error: handleFirebaseError(error) }] with the error
    of that call, and issues no other call. *)
Theorem identity_call_failure `{Config} (w : World) (msg : string) :
  fault w = Some msg →
  (∀ em pw dn,
     signUp em pw dn w
       = (Return (Failure (handleFirebaseError (ErrorObj msg))),
          enter (CreateUserWithEmailAndPassword em pw) w)) ∧
  (∀ em pw,
     signIn em pw w
       = (Return (Failure (handleFirebaseError (ErrorObj msg))),
          enter (SignInWithEmailAndPassword em pw) w)) ∧
  signInWithGoogle w
    = (Return (Failure (handleFirebaseError (ErrorObj msg))), enter SignInWithPopup w) ∧
  logOut w = (Return (Failure (handleFirebaseError (ErrorObj msg))), enter SignOut w) ∧
  (∀ em,
     resetPassword em w
       = (Return (Failure (handleFirebaseError (ErrorObj msg))),
          enter (SendPasswordResetEmail em) w)).
Proof.
  intros Hf. repeat split; intros;
    unfold signUp, signIn, signInWithGoogle, logOut, resetPassword,
      createUserWithEmailAndPassword, signInWithEmailAndPassword, signInWithPopup,
      signOut, sendPasswordResetEmail, try_catch, bind, call, refuse, ret;
    by rewrite Hf.
Qed.

Lemma identity_call_failure_witness :
  fault offline_world = Some "unavailable" ∧
  @signIn plain "ann@example.com" "secret" offline_world
    = (Return (Failure (VStr "unavailable")),
       enter (SignInWithEmailAndPassword "ann@example.com" "secret") offline_world).
Proof.
  assert (H1 : fault offline_world = Some "unavailable") by reflexivity.
  split; [exact H1|].
  exact (proj1 (proj2 (@identity_call_failure plain offline_world "unavailable" H1))
           "ann@example.com" "secret").
Defined.

Lemma signUp_run `{Config} (em pw : string) (dn : Value) (w : World) :
  accounts w !! em = None → calm w → db w !! ("users", "uid:" +:+ em) = None →
  ∃ reply w' doc,
    signUp em pw dn w = (Return (Success reply), w') ∧
    calm w' ∧
    current_user w'
      = Some (mkUser ("uid:" +:+ em) (VStr em)
                (if truthy (or_default dn (VStr "")) then or_default dn (VStr "") else VNull)
                VNull) ∧
    reply !! "email" = Some (VStr em) ∧
    reply !! "displayName" = Some (or_default dn (VStr "")) ∧
    db w' !! ("users", "uid:" +:+ em) = Some doc ∧
    doc !! "displayName" = Some (resolve (now w) (or_default dn (VStr ""))) ∧
    doc !! "email" = Some (VStr em) ∧
    doc !! "photoURL" = Some (VStr "").
Proof.
  intros Ha Hc Hnone.
  unfold signUp, createUserWithEmailAndPassword, updateProfile, createUserDocument,
    getDoc, setDoc.
  unfold try_catch, bind, ret. calmly. cbn [accounts enter with_faults with_log].
  rewrite Ha.
  destruct (truthy (or_default dn (VStr ""))) eqn:Hdn; cbn beta iota; repeat calmly.
  all: cbn [or_default fst snd db with_current_user with_accounts enter with_faults
            with_log uid rename].
  all: rewrite Hnone; cbn [negb ds_exists ds_data own_props displayName rename truthy].
  all: rewrite ?Hdn; cbn [prop]; unfold ret; cbn beta iota; calmly.
  all: eexists _, _, _; (split; [reflexivity|]).
  all: split; [unfold calm in *; cbn; by repeat apply Forall_tail|].
  all: split; [reflexivity|].
  all: cbn [db with_now with_db enter with_faults with_log with_current_user with_accounts
            log email displayName photoURL rename js_or truthy].
  all: rewrite ?Hdn.
  all: unfold stored, obj; cbn [foldl fst snd]; unfold put.
  all: rewrite lookup_insert_eq.
  all: repeat match goal with |- _ ∧ _ => split end.
  all: try (by rewrite ?lookup_insert_ne, lookup_insert_eq by done).
  all: try (eexists; reflexivity).
  all: try (rewrite lookup_fmap, spread_lookup; cbn [foldl fst snd]; unfold put;
            rewrite ?lookup_insert_ne, ?lookup_insert_eq, ?lookup_empty by done;
            try reflexivity).
  all: unfold js_or; by rewrite Hdn.
Qed.

(** X12.  [signUp] for a new email address, when no call fails: the reply and
    the user document both carry the email address and the display name
    given ([''] when none was given), and the user document has the empty
    string as [photoURL]. *)
Theorem signUp_reply_and_profile `{Config} (em pw : string) (dn : Value) (w : World) :
  accounts w !! em = None → calm w → db w !! ("users", "uid:" +:+ em) = None →
  ∃ reply w' doc,
    signUp em pw dn w = (Return (Success reply), w') ∧
    reply !! "email" = Some (VStr em) ∧
    reply !! "displayName" = Some (or_default dn (VStr "")) ∧
    db w' !! ("users", "uid:" +:+ em) = Some doc ∧
    doc !! "displayName" = Some (resolve (now w) (or_default dn (VStr ""))) ∧
    doc !! "email" = Some (VStr em) ∧
    doc !! "photoURL" = Some (VStr "").
Proof.
  intros Ha Hc Hnone.
  destruct (signUp_run em pw dn w Ha Hc Hnone)
    as (reply & w' & doc & Hrun & _ & _ & Hrest).
  by exists reply, w', doc.
Qed.

Lemma signUp_reply_and_profile_witness :
  accounts empty_world !! "ann@example.com" = None ∧
  calm empty_world ∧
  db empty_world !! ("users", "uid:" +:+ "ann@example.com") = None ∧
  ∃ reply w' doc,
    @signUp plain "ann@example.com" "secret" (VStr "Ann") empty_world
      = (Return (Success reply), w') ∧
    reply !! "email" = Some (VStr "ann@example.com") ∧
    reply !! "displayName" = Some (or_default (VStr "Ann") (VStr "")) ∧
    db w' !! ("users", "uid:" +:+ "ann@example.com") = Some doc ∧
    doc !! "displayName"
      = Some (resolve (now empty_world) (or_default (VStr "Ann") (VStr ""))) ∧
    doc !! "email" = Some (VStr "ann@example.com") ∧
    doc !! "photoURL" = Some (VStr "").
Proof.
  assert (H1 : accounts empty_world !! "ann@example.com" = None) by reflexivity.
  assert (H2 : calm empty_world) by constructor.
  assert (H3 : db empty_world !! ("users", "uid:" +:+ "ann@example.com") = None)
    by reflexivity.
  split; [exact H1|]. split; [exact H2|]. split; [exact H3|].
  exact (@signUp_reply_and_profile plain "ann@example.com" "secret" (VStr "Ann")
           empty_world H1 H2 H3).
Defined.

(** X13.  [createUserDocument] rejects in one case only: when its first call,
    the read of the user document, fails; the error is that of the read,
    which is outside the [try].  When the read goes through it returns the
    reference [users/uid], whatever happens to the write.  Without a user
    it returns at once, with no call. *)
Theorem createUserDocument_outcome (u : User) (additionalData : Value) (w : World) :
  (∀ msg, fault w = Some msg →
     createUserDocument (Some u) additionalData w
       = (Throw (ErrorObj msg), enter (GetDoc "users" (uid u)) w)) ∧
  (fault w = None →
     ∃ w', createUserDocument (Some u) additionalData w
             = (Return (Some ("users", uid u)), w')) ∧
  createUserDocument None additionalData w = (Return None, w).
Proof.
  repeat match goal with |- _ ∧ _ => split end.
  - intros msg Hf. unfold createUserDocument, getDoc, bind, call. cbn [fst snd].
    by rewrite Hf.
  - intros Hf. unfold createUserDocument, getDoc, bind, call. cbn [fst snd].
    rewrite Hf. cbn beta iota.
    destruct (negb _); [|by eexists].
    match goal with |- context [try_catch ?b ?h ?w1] =>
      destruct (try_catch_total b h (fun e w0 => ex_intro _ tt (ex_intro _ w0 eq_refl)) w1)
        as ([] & w2 & ->) end.
    by eexists.
  - reflexivity.
Qed.

Lemma createUserDocument_outcome_witness :
  fault offline_world = Some "unavailable" ∧
  createUserDocument (Some ann_google) VUndefined offline_world
    = (Throw (ErrorObj "unavailable"), enter (GetDoc "users" (uid ann_google)) offline_world) ∧
  fault flaky_world = None ∧
  ∃ w', createUserDocument (Some ann_google) VUndefined flaky_world
          = (Return (Some ("users", uid ann_google)), w').
Proof.
  assert (H1 : fault offline_world = Some "unavailable") by reflexivity.
  assert (H2 : fault flaky_world = None) by reflexivity.
  split; [exact H1|]. split.
  - exact (proj1 (createUserDocument_outcome ann_google VUndefined offline_world)
             "unavailable" H1).
  - split; [exact H2|].
    exact (proj1 (proj2 (createUserDocument_outcome ann_google VUndefined flaky_world)) H2).
Defined.

(** X14.  A failure while the user document is written is swallowed: when the
    document is missing and either the write fails at the platform, or the
    user has no display name and [additionalData] is [null] (reading
    [additionalData.displayName] throws), [createUserDocument] still
    returns the reference, and no document has been written. *)
Theorem createUserDocument_swallows (u : User) (additionalData : Value) (w : World) :
  fault w = None → db w !! ("users", uid u) = None →
  (truthy (displayName u) = false ∧ (additionalData = VNull)) ∨
    is_Some (fault (enter (GetDoc "users" (uid u)) w)) →
  ∃ w', createUserDocument (Some u) additionalData w
          = (Return (Some ("users", uid u)), w') ∧
        db w' = db w.
Proof.
  intros Hf Hnone Hwhy.
  unfold createUserDocument, getDoc, bind, call. cbn [fst snd]. rewrite Hf.
  cbn beta iota.
  change (db (enter (GetDoc "users" (uid u)) w)) with (db w). rewrite Hnone.
  unfold ds_exists. cbn [ds_data negb]. unfold try_catch, bind, ret, setDoc, call.
  destruct Hwhy as [[Hdn ->]|[msg Hm]].
  - rewrite Hdn. cbn. by eexists.
  - destruct (truthy (displayName u)).
    + rewrite Hm. by eexists.
    + destruct (or_default additionalData (VObj ∅)); cbn [prop]; unfold ret, throw;
        rewrite ?Hm; by eexists.
Qed.

Lemma createUserDocument_swallows_witness :
  fault flaky_world = None ∧
  db flaky_world !! ("users", uid ann_google) = None ∧
  is_Some (fault (enter (GetDoc "users" (uid ann_google)) flaky_world)) ∧
  ∃ w', createUserDocument (Some ann_google) VUndefined flaky_world
          = (Return (Some ("users", uid ann_google)), w') ∧
        db w' = db flaky_world.
Proof.
  assert (H1 : fault flaky_world = None) by reflexivity.
  assert (H2 : db flaky_world !! ("users", uid ann_google) = None) by reflexivity.
  assert (H3 : is_Some (fault (enter (GetDoc "users" (uid ann_google)) flaky_world)))
    by (eexists; reflexivity).
  split; [exact H1|]. split; [exact H2|]. split; [exact H3|].
  exact (createUserDocument_swallows ann_google VUndefined flaky_world H1 H2
           (or_intror H3)).
Defined.

(** X15.  [signInWithGoogle] for a user whose document exists, when no call
    fails: the reply carries [uid], [email], [displayName] and [photoURL]
    of the account; the popup and one read of the user document are the
    only calls, and the documents are untouched. *)
Theorem signInWithGoogle_returning `{Config} (u : User) (doc : Obj) (w : World) :
  google_account w = Some u → calm w → db w !! ("users", uid u) = Some doc →
  ∃ w',
    signInWithGoogle w
      = (Return (Success (obj [("uid", VStr (uid u)); ("email", email u);
                               ("displayName", displayName u);
                               ("photoURL", photoURL u)])), w') ∧
    db w' = db w ∧
    current_user w' = Some u ∧
    log w' = log w ++ [SignInWithPopup; GetDoc "users" (uid u)].
Proof.
  intros Hg Hc Hdoc.
  unfold signInWithGoogle, signInWithPopup, createUserDocument, getDoc.
  unfold try_catch, bind, ret. calmly. cbn [google_account enter with_faults with_log].
  rewrite Hg. calmly.
  cbn [or_default fst snd db with_current_user enter with_faults with_log].
  rewrite Hdoc. cbn [negb ds_exists ds_data].
  eexists. split; [reflexivity|]. cbn. by rewrite <- app_assoc.
Qed.

Lemma signInWithGoogle_returning_witness :
  google_account returning_world = Some ann_google ∧
  calm returning_world ∧
  db returning_world !! ("users", uid ann_google) = Some ann_document ∧
  ∃ w',
    @signInWithGoogle plain returning_world
      = (Return (Success (obj [("uid", VStr (uid ann_google)); ("email", email ann_google);
                               ("displayName", displayName ann_google);
                               ("photoURL", photoURL ann_google)])), w') ∧
    db w' = db returning_world ∧
    current_user w' = Some ann_google ∧
    log w' = log returning_world ++ [SignInWithPopup; GetDoc "users" (uid ann_google)].
Proof.
  assert (H1 : google_account returning_world = Some ann_google) by reflexivity.
  assert (H2 : calm returning_world) by constructor.
  assert (H3 : db returning_world !! ("users", uid ann_google) = Some ann_document)
    by reflexivity.
  split; [exact H1|]. split; [exact H2|]. split; [exact H3|].
  exact (@signInWithGoogle_returning plain ann_google ann_document returning_world
           H1 H2 H3).
Defined.

(** X16.  [getCurrentUserData] returns [null] without a call when [uid] is falsy;
    for a non-empty string it reads [users/uid] once and returns the data of
    the document, or [null] when there is none or when the read fails. *)
Theorem getCurrentUserData_reads (w : World) :
  (∀ uid, truthy uid = false → getCurrentUserData uid w = (Return None, w)) ∧
  (∀ id, truthy (VStr id) = true →
     getCurrentUserData (VStr id) w
       = (Return (match fault w with
                  | Some _ => None
                  | None => db w !! ("users", id)
                  end), enter (GetDoc "users" id) w)).
Proof.
  split.
  - intros uid Hu. unfold getCurrentUserData. by rewrite Hu.
  - intros id Hid. unfold getCurrentUserData. rewrite Hid. cbn [negb].
    unfold try_catch, bind, getDoc, call, ret. by destruct (fault w).
Qed.

Lemma getCurrentUserData_reads_witness :
  truthy (VStr "") = false ∧
  getCurrentUserData (VStr "") returning_world = (Return None, returning_world) ∧
  truthy (VStr "g-1") = true ∧
  getCurrentUserData (VStr "g-1") returning_world
    = (Return (match fault returning_world with
               | Some _ => None
               | None => db returning_world !! ("users", "g-1")
               end), enter (GetDoc "users" "g-1") returning_world).
Proof.
  assert (H1 : truthy (VStr "") = false) by reflexivity.
  assert (H2 : truthy (VStr "g-1") = true) by reflexivity.
  split; [exact H1|]. split.
  - exact (proj1 (getCurrentUserData_reads returning_world) (VStr "") H1).
  - split; [exact H2|].
    exact (proj2 (getCurrentUserData_reads returning_world) "g-1" H2).
Defined.

(** ** Files *)

Lemma calm_put_object path f w : calm w → calm (put_object path f w).
Proof. done. Qed.

#[local] Hint Resolve calm_put_object : calm.



(** X18.  [uploadStatement] builds the path from [file.name] before [uploadFile]
    validates the file: for a [null] file it rejects instead of replying
    ['No file selected'].  A valid file, when no call fails, is stored
    under [statements/<userId>/<timestamp>_<file name>]. *)
Theorem uploadStatement_stores (userId : string) (onProgress : option Callback)
    (w : World) :
  (∃ e, uploadStatement None userId onProgress w = (Throw e, w)) ∧
  (∀ f, validateFile (Some f) = Valid → calm w →
     ∃ up w',
       uploadStatement (Some f) userId onProgress w = (Return (Success up), w') ∧
       md_fullPath (metadata up)
         = "statements/" +:+ userId +:+ "/" +:+ pretty (now w) +:+ "_" +:+ file_name f ∧
       md_size (metadata up) = file_size f ∧
       files w' !! md_fullPath (metadata up) = Some (metadata up)).
Proof.
  split; [by eexists|].
  intros f Hv Hc. unfold uploadStatement. unfold bind at 1. cbn beta iota.
  unfold uploadFile. rewrite Hv.
  destruct onProgress as [cb|].
  - unfold try_catch at 1. unfold bind at 1. unfold ret at 1. cbn beta iota.
    unfold bind, try_catch, run_upload, invoke, getDownloadURL, getMetadata, ret.
    repeat calmly.
    cbn [files put_object with_now with_files with_log enter with_faults].
    rewrite lookup_insert_eq. repeat calmly.
    cbn [files put_object with_now with_files with_log enter with_faults].
    rewrite lookup_insert_eq.
    eexists _, _. split; [reflexivity|]. cbn. by rewrite lookup_insert_eq.
  - unfold bind, try_catch, uploadBytes, getDownloadURL, getMetadata, ret.
    repeat calmly.
    cbn [files put_object with_now with_files with_log enter with_faults].
    rewrite lookup_insert_eq. repeat calmly.
    cbn [files put_object with_now with_files with_log enter with_faults].
    rewrite lookup_insert_eq.
    eexists _, _. split; [reflexivity|]. cbn. by rewrite lookup_insert_eq.
Qed.

Lemma uploadStatement_stores_witness :
  validateFile (Some pdf) = Valid ∧
  calm empty_world ∧
  ∃ up w',
    uploadStatement (Some pdf) "u" None empty_world = (Return (Success up), w') ∧
    md_fullPath (metadata up)
      = "statements/" +:+ "u" +:+ "/" +:+ pretty (now empty_world) +:+ "_" +:+ file_name pdf ∧
    md_size (metadata up) = file_size pdf ∧
    files w' !! md_fullPath (metadata up) = Some (metadata up).
Proof.
  assert (H1 : validateFile (Some pdf) = Valid) by reflexivity.
  assert (H2 : calm empty_world) by constructor.
  split; [exact H1|]. split; [exact H2|].
  exact (proj2 (uploadStatement_stores "u" None empty_world) pdf H1 H2).
Defined.

(** X19.  [validateFile] on a file: the size is checked first, so a file above
    10 MB gets the size message even when its type is unsupported as well;
    a file of exactly 10485760 bytes passes the size check. *)
Theorem validateFile_messages (f : File) :
  ((10485760 < file_size f)%Z →
     validateFile (Some f) = Invalid "File size must be less than 10MB") ∧
  ((file_size f ≤ 10485760)%Z → file_type f ∉ allowedTypes →
     validateFile (Some f)
       = Invalid "File type not supported. Please upload PDF, JPEG, PNG, or WebP files.") ∧
  ((file_size f ≤ 10485760)%Z → file_type f ∈ allowedTypes → validateFile (Some f) = Valid).
Proof.
  unfold validateFile, maxSize.
  repeat match goal with |- _ ∧ _ => split end.
  - intros Hs. by destruct (Z.ltb_spec (10 * 1024 * 1024) (file_size f)); [|lia].
  - intros Hs Ht. destruct (Z.ltb_spec (10 * 1024 * 1024) (file_size f)); [lia|].
    by rewrite bool_decide_eq_false_2.
  - intros Hs Ht. destruct (Z.ltb_spec (10 * 1024 * 1024) (file_size f)); [lia|].
    by rewrite bool_decide_eq_true_2.
Qed.

Lemma validateFile_messages_witness :
  (10485760 < file_size (mkFile "scan.png" 10485761 "image/png"))%Z ∧
  validateFile (Some (mkFile "scan.png" 10485761 "image/png"))
    = Invalid "File size must be less than 10MB" ∧
  (file_size (mkFile "scan.png" 10485760 "image/png") ≤ 10485760)%Z ∧
  file_type (mkFile "scan.png" 10485760 "image/png") ∈ allowedTypes ∧
  validateFile (Some (mkFile "scan.png" 10485760 "image/png")) = Valid.
Proof.
  assert (H1 : (10485760 < file_size (mkFile "scan.png" 10485761 "image/png"))%Z)
    by (simpl; lia).
  assert (H2 : (file_size (mkFile "scan.png" 10485760 "image/png") ≤ 10485760)%Z)
    by (simpl; lia).
  assert (H3 : file_type (mkFile "scan.png" 10485760 "image/png") ∈ allowedTypes)
    by (do 3 apply list_elem_of_further; apply list_elem_of_here).
  split; [exact H1|]. split.
  - exact (proj1 (validateFile_messages (mkFile "scan.png" 10485761 "image/png")) H1).
  - split; [exact H2|]. split; [exact H3|].
    exact (proj2 (proj2 (validateFile_messages (mkFile "scan.png" 10485760 "image/png")))
             H2 H3).
Defined.

(** X20.  After a [deleteFile] that replied with success the object was there
    and is gone: [getFileURL], [getFileMetadata] and a second [deleteFile]
    of the same path all reply [{ success: false, error }]. *)
Theorem deleteFile_then_gone (path : string) (w w' : World) :
  deleteFile path w = (Return (Success tt), w') →
  is_Some (files w !! path) ∧
  files w' = delete path (files w) ∧
  (∃ e, fst (getFileURL path w') = Return (Failure e)) ∧
  (∃ e, fst (getFileMetadata path w') = Return (Failure e)) ∧
  (∃ e, fst (deleteFile path w') = Return (Failure e)).
Proof.
  intros Hrun.
  assert (Hwas : is_Some (files w !! path) ∧ files w' = delete path (files w)).
  { revert Hrun. unfold deleteFile, deleteObject, try_catch, bind, call, decline, ret.
    destruct (fault w); [done|]. cbn [files enter with_faults with_log].
    destruct (files w !! path); [|done]. by intros [= <-]. }
  destruct Hwas as [Hwas Hfiles]. split; [done|]. split; [done|].
  assert (Hnone : files w' !! path = None) by (by rewrite Hfiles, lookup_delete_eq).
  unfold getFileURL, getFileMetadata, deleteFile, getDownloadURL, getMetadata,
    deleteObject, try_catch, bind, call, decline, ret.
  destruct (fault w'); cbn [files enter with_faults with_log]; rewrite ?Hnone;
    repeat split; by eexists.
Qed.

Lemma deleteFile_then_gone_witness :
  deleteFile january stored_world
    = (Return (Success tt), snd (deleteFile january stored_world)) ∧
  is_Some (files stored_world !! january) ∧
  files (snd (deleteFile january stored_world)) = delete january (files stored_world) ∧
  (∃ e, fst (getFileURL january (snd (deleteFile january stored_world)))
          = Return (Failure e)) ∧
  (∃ e, fst (getFileMetadata january (snd (deleteFile january stored_world)))
          = Return (Failure e)) ∧
  (∃ e, fst (deleteFile january (snd (deleteFile january stored_world)))
          = Return (Failure e)).
Proof.
  assert (H1 : deleteFile january stored_world
               = (Return (Success tt), snd (deleteFile january stored_world)))
    by reflexivity.
  split; [exact H1|].
  exact (deleteFile_then_gone january stored_world _ H1).
Defined.

Lemma fired_all_stored paths : ∀ w replies w',
  fired paths w replies w' → calm w → NoDup paths →
  (∀ p, p ∈ paths → is_Some (files w !! p)) →
  replies = map (fun _ => Success tt) paths ∧
  (∀ p, files w' !! p = if bool_decide (p ∈ paths) then None else files w !! p).
Proof.
  induction paths as [|path paths IH]; intros w replies w' Hfired Hc Hnd Hall.
  - inversion Hfired; subst. split; [done|]. intros p. by rewrite bool_decide_eq_false_2
      by apply not_elem_of_nil.
  - inversion Hfired as [|? ? ? reply w1 replies' ? Hone Hrest]; subst.
    apply NoDup_cons in Hnd as [Hnotin Hnd].
    destruct (Hall path) as [md Hmd]; [by left|].
    revert Hone. unfold deleteFile, deleteObject, try_catch, bind, ret. calmly.
    cbn [files enter with_faults with_log]. rewrite Hmd. intros [= <- <-].
    destruct (IH _ _ _ Hrest) as [-> Hfiles]; [by eauto 10 with calm|done| |].
    { intros p Hp. cbn. rewrite lookup_delete_ne by (intros ->; done).
      apply Hall. by right. }
    split; [done|].
    intros p. rewrite Hfiles. cbn.
    destruct (decide (p = path)) as [->|Hne].
    + rewrite (bool_decide_eq_false_2 _ Hnotin), bool_decide_eq_true_2 by left.
      by rewrite lookup_delete_eq.
    + case_bool_decide as Hin.
      * by rewrite bool_decide_eq_true_2 by (by right).
      * rewrite bool_decide_eq_false_2 by (rewrite elem_of_cons; tauto).
        by rewrite lookup_delete_ne.
Qed.

(** X21.  [deleteFiles] on distinct paths that are all stored, when no call
    fails: every deletion succeeds, the tally is [successful = total] and
    [failed = 0], and afterwards exactly the objects under these paths are
    gone. *)
Theorem deleteFiles_all_stored (filePaths : list string) (w : World) :
  calm w → NoDup filePaths → (∀ p, p ∈ filePaths → is_Some (files w !! p)) →
  ∃ w',
    deleteFiles filePaths w
      = (Return (Success (mkTally (length filePaths) 0 (length filePaths))), w') ∧
    (∀ p, files w' !! p = if bool_decide (p ∈ filePaths) then None else files w !! p).
Proof.
  intros Hc Hnd Hall.
  destruct (allSettled_deleteFile filePaths w) as (replies & w' & Hfired & Hrun & _).
  destruct (fired_all_stored _ _ _ _ Hfired Hc Hnd Hall) as [-> Hfiles].
  exists w'. split; [|done].
  unfold deleteFiles, try_catch, bind. rewrite Hrun. unfold ret.
  do 3 f_equal.
  destruct (tally_fulfilled (map (fun _ : string => Success tt) filePaths)) as [-> ->].
  unfold successes, failures. clear.
  f_equal; induction filePaths as [|p ps IHp]; simpl; congruence.
Qed.

Lemma deleteFiles_all_stored_witness :
  calm stored_world ∧
  NoDup [january] ∧
  (∀ p, p ∈ [january] → is_Some (files stored_world !! p)) ∧
  ∃ w',
    deleteFiles [january] stored_world
      = (Return (Success (mkTally (length [january]) 0 (length [january]))), w') ∧
    (∀ p, files w' !! p
            = if bool_decide (p ∈ [january]) then None else files stored_world !! p).
Proof.
  assert (H1 : calm stored_world) by constructor.
  assert (H2 : NoDup [january]) by (apply NoDup_singleton).
  assert (H3 : ∀ p, p ∈ [january] → is_Some (files stored_world !! p)).
  { intros p Hp. apply list_elem_of_singleton in Hp as ->. eexists. reflexivity. }
  split; [exact H1|]. split; [exact H2|]. split; [exact H3|].
  exact (deleteFiles_all_stored [january] stored_world H1 H2 H3).
Defined.

(** ** Names of stored files *)

Import Paths.

Lemma append_cons c (a s : string) : String c a +:+ s = String c (a +:+ s).
Proof. reflexivity. Qed.

Lemma append_snoc (a : string) c s : (a +:+ String c EmptyString) +:+ s = a +:+ String c s.
Proof. induction a as [|x a IH]; [done|]. rewrite !append_cons. by rewrite IH. Qed.

Lemma append_empty (a : string) : a +:+ "" = a.
Proof. induction a as [|x a IH]; [done|]. rewrite append_cons. by rewrite IH. Qed.

Lemma last_segment_from_dotless s : ∀ acc,
  dotless s = true → last_segment_from acc s = acc +:+ s.
Proof.
  induction s as [|c s IH]; intros acc Hs.
  - cbn. by rewrite append_empty.
  - cbn in Hs. apply andb_true_iff in Hs as [Hc Hs]. cbn.
    destruct (Ascii.eqb c "."); [done|]. rewrite IH by done. apply append_snoc.
Qed.

Lemma last_segment_from_dot base ext : ∀ acc,
  last_segment_from acc (base +:+ "." +:+ ext) = last_segment_from "" ext.
Proof.
  induction base as [|c base IH]; intros acc; [done|].
  rewrite append_cons. cbn. destruct (Ascii.eqb c "."); apply IH.
Qed.

(** X22.  The extension [generateFilePath] takes, [originalName.split('.').pop()],
    is what follows the last dot of the name; for a name without a dot it
    is the whole name. *)
Theorem extension_spec :
  (∀ base ext, dotless ext = true → extension (base +:+ "." +:+ ext) = ext) ∧
  (∀ name, dotless name = true → extension name = name).
Proof.
  unfold extension. split.
  - intros base ext Hext. rewrite last_segment_from_dot.
    by rewrite last_segment_from_dotless.
  - intros name Hname. by rewrite last_segment_from_dotless.
Qed.

Lemma extension_spec_witness :
  dotless "pdf" = true ∧
  extension ("2024.january" +:+ "." +:+ "pdf") = "pdf" ∧
  dotless "README" = true ∧
  extension "README" = "README".
Proof.
  assert (H1 : dotless "pdf" = true) by reflexivity.
  assert (H2 : dotless "README" = true) by reflexivity.
  split; [exact H1|]. split.
  - exact (proj1 extension_spec "2024.january" "pdf" H1).
  - split; [exact H2|]. exact (proj2 extension_spec "README" H2).
Defined.

(** X23.  [generateFilePath] makes no platform call.  It returns
    [<folder>/<userId>/<timestamp>_<random>.<extension>], where the folder
    is [statements], [exports] or [profiles] for the file types
    [statement], [export] and [profile], and [misc] for any other type but
    the names every object inherits ([constructor], [toString], ...): for
    such a type [pathMap[fileType]] is that inherited member, which is
    truthy and is returned in place of a path. *)
Theorem generateFilePath_result (random userId fileType originalName : string)
    (w : World) :
  ∃ g, generateFilePath random userId fileType originalName w = (Return g, w) ∧
    match g with
    | Member name => name = fileType ∧ fileType ∈ inherited_members
    | Path path =>
        ∃ folder,
          path = folder +:+ "/" +:+ userId +:+ "/" +:+ pretty (now w) +:+ "_" +:+ random
                   +:+ "." +:+ extension originalName ∧
          ((fileType, folder) ∈ folders ∨
           (folder = "misc" ∧ (fileType ∉ ["statement"; "export"; "profile"]) ∧
            (fileType ∉ inherited_members)))
    end.
Proof.
  unfold generateFilePath, bind, ret. cbn beta iota.
  destruct (String.eqb_spec fileType "statement") as [->|H1].
  { eexists. split; [reflexivity|]. exists "statements". split; [done|]. left.
    apply list_elem_of_here. }
  destruct (String.eqb_spec fileType "export") as [->|H2].
  { eexists. split; [reflexivity|]. exists "exports". split; [done|]. left.
    apply list_elem_of_further, list_elem_of_here. }
  destruct (String.eqb_spec fileType "profile") as [->|H3].
  { eexists. split; [reflexivity|]. exists "profiles". split; [done|]. left.
    do 2 apply list_elem_of_further. apply list_elem_of_here. }
  case_bool_decide as Hin.
  - eexists. split; [reflexivity|]. done.
  - eexists. split; [reflexivity|]. exists "misc". split; [done|]. right.
    split; [done|]. split; [|done].
    rewrite !elem_of_cons, elem_of_nil. tauto.
Qed.

(** ** The provider *)

Import AuthContext.

Lemma entry_flow {A} (op : M (Result A)) (handler : Thrown → C (Result unit)) s w reply w' :
  op w = (Return reply, w') →
  and_then (setError VNull) (fun _ =>
    and_then (setLoading true) (fun _ =>
      finally
        (catching
           (and_then (await op) (fun result =>
              match result with
              | Failure error => and_then (setError error) (fun _ => pure (Failure error))
              | Success _ => pure (Success tt)
              end))
           handler)
        (setLoading false))) s w
  = (Return (verdict reply),
     mkState (user s) (userData s) false (error_after reply), w').
Proof.
  intros Hop.
  unfold and_then, finally, catching, await, setError, setLoading, pure.
  cbn [user userData loading error]. rewrite Hop. by destruct reply.
Qed.

Section Provider.
Context `{Config}.

(** X24.  [login], [register] and [loginWithGoogle] of the provider never throw:
    each makes the one call to the service, answers [{ success: true }] or
    [{ success: false, error }] as the service replied, leaves [loading] at
    [false] and [user] and [userData] as they were, and leaves in [error]
    [null] after a success and the error of the reply after a failure. *)
Theorem provider_sign_in (s : State) (w : World) :
  (∀ em pw, ∃ reply w',
     signIn em pw w = (Return reply, w') ∧
     login em pw s w
       = (Return (verdict reply),
          mkState (user s) (userData s) false (error_after reply), w')) ∧
  (∀ em pw dn, ∃ reply w',
     signUp em pw dn w = (Return reply, w') ∧
     register em pw dn s w
       = (Return (verdict reply),
          mkState (user s) (userData s) false (error_after reply), w')) ∧
  (∃ reply w',
     signInWithGoogle w = (Return reply, w') ∧
     loginWithGoogle s w
       = (Return (verdict reply),
          mkState (user s) (userData s) false (error_after reply), w')).
Proof.
  repeat match goal with |- _ ∧ _ => split end.
  - intros em pw. destruct (proj1 (signIn_guarded em pw) w) as (reply & w' & Hop).
    exists reply, w'. split; [done|]. by apply entry_flow.
  - intros em pw dn. destruct (proj1 (signUp_guarded em pw dn) w) as (reply & w' & Hop).
    exists reply, w'. split; [done|]. by apply entry_flow.
  - destruct (proj1 signInWithGoogle_guarded w) as (reply & w' & Hop).
    exists reply, w'. split; [done|]. by apply entry_flow.
Qed.

(** X25.  [logout] of the provider does not look at the reply of [logOut]: it
    always answers [{ success: true }] and clears [user] and [userData],
    also when the sign-out failed at the platform, where the user is then
    still signed in. *)
Theorem logout_clears (s : State) (w : World) :
  logout s w
    = (Return (Success tt), mkState None None (loading s) VNull, snd (logOut w)) ∧
  (∀ msg, fault w = Some msg → current_user (snd (logOut w)) = current_user w) ∧
  (fault w = None → current_user (snd (logOut w)) = None).
Proof.
  repeat match goal with |- _ ∧ _ => split end.
  - destruct (proj1 logOut_guarded w) as (reply & w' & Hop).
    unfold logout, and_then, catching, await, setError, setUser, setUserData, pure.
    cbn [user userData loading error]. by rewrite Hop.
  - intros msg Hf. unfold logOut, signOut, try_catch, bind, call, refuse, ret.
    by rewrite Hf.
  - intros Hf. unfold logOut, signOut, try_catch, bind, call, refuse, ret.
    by rewrite Hf.
Qed.

(** X26.  [forgotPassword] of the provider passes the reply of [resetPassword]
    on, keeps [error] in step with it, and touches no other cell; the
    message of a success is 'Password reset email sent successfully.'. *)
Theorem forgotPassword_outcome (em : string) (s : State) (w : World) :
  ∃ reply w',
    resetPassword em w = (Return reply, w') ∧
    forgotPassword em s w
      = (Return reply, mkState (user s) (userData s) (loading s) (error_after reply), w') ∧
    (∀ message, reply = Success message →
       message = "Password reset email sent successfully.").
Proof.
  destruct (proj1 (resetPassword_guarded em) w) as (reply & w' & Hop).
  exists reply, w'. split; [done|]. split.
  - unfold forgotPassword, and_then, catching, await, setError, pure.
    cbn [user userData loading error]. rewrite Hop. by destruct reply.
  - intros message ->. revert Hop.
    unfold resetPassword, sendPasswordResetEmail, try_catch, bind, call, refuse, ret.
    destruct (fault w); [done|]. destruct (accounts _ !! em); [|done]. by intros [= <-].
Qed.

End Provider.

Lemma logout_clears_witness :
  fault stranded_world = Some "unavailable" ∧
  @logout plain initial stranded_world
    = (Return (Success tt), mkState None None (loading initial) VNull,
       snd (@logOut plain stranded_world)) ∧
  current_user (snd (@logOut plain stranded_world)) = current_user stranded_world ∧
  current_user stranded_world = Some ann_google.
Proof.
  assert (H1 : fault stranded_world = Some "unavailable") by reflexivity.
  split; [exact H1|]. split.
  - exact (proj1 (@logout_clears plain initial stranded_world)).
  - split; [|reflexivity].
    exact (proj1 (proj2 (@logout_clears plain initial stranded_world)) "unavailable" H1).
Defined.

(** X27.  The observer of the provider never throws and always ends with
    [loading] at [false]; it leaves [error] as it was.  Without a user it
    clears [user] and [userData]; with one it sets [user] to the four
    properties of the account and [userData] to what
    [getCurrentUserData] returns for its uid. *)
Theorem authStateChanged_outcome (s : State) (w : World) :
  authStateChanged None s w = (Return tt, mkState None None false (error s), w) ∧
  (∀ u, ∃ data w',
     getCurrentUserData (VStr (uid u)) w = (Return data, w') ∧
     authStateChanged (Some u) s w
       = (Return tt, mkState (Some (userInfo_of u)) data false (error s), w')).
Proof.
  split; [reflexivity|].
  intros u. destruct (getCurrentUserData_total (VStr (uid u)) w) as (data & w' & Hop).
  exists data, w'. split; [done|].
  unfold authStateChanged, and_then, await, setUser, setUserData, setLoading.
  cbn [user userData loading error]. by rewrite Hop.
Qed.

(** X28.  Registration end to end: after [register] for a new email address,
    when no call fails, the observer called with the user now signed in
    finds the user document that [signUp] has just written: [userData] is
    that document, [user] the account, [loading] is [false] and [error]
    [null]. *)
Theorem register_then_observer `{Config} (em pw : string) (dn : Value) (s : State)
    (w : World) :
  accounts w !! em = None → calm w → db w !! ("users", "uid:" +:+ em) = None →
  ∃ s1 w1 u s2 w2 doc,
    register em pw dn s w = (Return (Success tt), s1, w1) ∧
    current_user w1 = Some u ∧
    authStateChanged (Some u) s1 w1 = (Return tt, s2, w2) ∧
    user s2 = Some (userInfo_of u) ∧
    userData s2 = Some doc ∧
    db w1 !! ("users", uid u) = Some doc ∧
    doc !! "email" = Some (VStr em) ∧
    loading s2 = false ∧
    error s2 = VNull.
Proof.
  intros Ha Hc Hnone.
  destruct (signUp_run em pw dn w Ha Hc Hnone)
    as (reply & w1 & doc & Hrun & Hc1 & Hcur & _ & _ & Hdoc & _ & Hemail & _).
  eexists _, w1, _, _, _, doc.
  split; [unfold register; rewrite (entry_flow _ _ s w _ _ Hrun); reflexivity|].
  split; [exact Hcur|].
  unfold authStateChanged, and_then, await, setUser, setUserData, setLoading.
  cbn [user userData loading error uid].
  unfold getCurrentUserData.
  change ("uid:" +:+ em) with (String "u" ("id:" +:+ em)) at 1.
  cbn [truthy String.eqb negb].
  unfold try_catch, bind, getDoc, ret. calmly.
  cbn [db enter with_faults with_log ds_data]. rewrite Hdoc.
  repeat split; done.
Qed.

Lemma register_then_observer_witness :
  accounts empty_world !! "ann@example.com" = None ∧
  calm empty_world ∧
  db empty_world !! ("users", "uid:" +:+ "ann@example.com") = None ∧
  ∃ s1 w1 u s2 w2 doc,
    @AuthContext.register plain "ann@example.com" "secret" (VStr "Ann")
      AuthContext.initial empty_world = (Return (Success tt), s1, w1) ∧
    current_user w1 = Some u ∧
    AuthContext.authStateChanged (Some u) s1 w1 = (Return tt, s2, w2) ∧
    AuthContext.user s2 = Some (userInfo_of u) ∧
    AuthContext.userData s2 = Some doc ∧
    db w1 !! ("users", uid u) = Some doc ∧
    doc !! "email" = Some (VStr "ann@example.com") ∧
    AuthContext.loading s2 = false ∧
    AuthContext.error s2 = VNull.
Proof.
  assert (H1 : accounts empty_world !! "ann@example.com" = None) by reflexivity.
  assert (H2 : calm empty_world) by constructor.
  assert (H3 : db empty_world !! ("users", "uid:" +:+ "ann@example.com") = None)
    by reflexivity.
  split; [exact H1|]. split; [exact H2|]. split; [exact H3|].
  exact (@register_then_observer plain "ann@example.com" "secret" (VStr "Ann")
           AuthContext.initial empty_world H1 H2 H3).
Defined.
